(** * homeoffice: SPI client of the home-office power monitor

    A shallow embedding of [homeoffice.c].  The program talks to the
    peripheral through the Linux [spidev] driver; the driver is the only
    thing that is not in the source, so it is an interface ([spidev]) and
    every function of the program is written against it.  The program's
    globals ([gs_spi_fd], [gs_homeoffice_data]), the two standard streams
    and the list of transfers handed to the driver make up the [world]
    that the functions thread through. *)

From Stdlib Require Import ZArith String.
From Stdlib.Strings Require Import Byte.
From Stdlib Require Import Floats.SpecFloat.
From stdpp Require Import base tactics option list.

Local Open Scope Z_scope.
Local Open Scope string_scope.
Local Open Scope list_scope.
Local Open Scope nat_scope.

(** ** Private defines *)

Definition SPI_DEVICE : string := "/dev/spidev0.0".
Definition SPI_MODE_0 : Z := 0%Z.
Definition SPI_MODE : Z := SPI_MODE_0.
Definition SPI_BITS_PER_WORD : Z := 8%Z.
Definition SPI_SPEED_HZ : Z := 100000%Z.

Definition CMD_READ_VOLTAGE : byte := x01.
Definition CMD_READ_CURRENT : byte := x02.
Definition CMD_READ_POWER : byte := x03.
Definition CMD_READ_RELAY : byte := x04.
Definition CMD_READ_ALL : byte := x05.
Definition CMD_SET_RELAY_ON : byte := x06.
Definition CMD_SET_RELAY_OFF : byte := x07.

(** The seven command codes. *)
Definition command_codes : list byte :=
  [CMD_READ_VOLTAGE; CMD_READ_CURRENT; CMD_READ_POWER; CMD_READ_RELAY;
   CMD_READ_ALL; CMD_SET_RELAY_ON; CMD_SET_RELAY_OFF].

(** ** [get_cmd_str] *)

(** The [switch] of the source, case by case in its order. *)
Definition get_cmd_str (cmd : byte) : string :=
  if Byte.eqb cmd CMD_READ_POWER then "READ POWER"
  else if Byte.eqb cmd CMD_READ_CURRENT then "READ CURRENT"
  else if Byte.eqb cmd CMD_READ_VOLTAGE then "READ VOLTAGE"
  else if Byte.eqb cmd CMD_READ_RELAY then "READ RELAY"
  else if Byte.eqb cmd CMD_READ_ALL then "READ ALL"
  else if Byte.eqb cmd CMD_SET_RELAY_ON then "SET RELAY ON"
  else if Byte.eqb cmd CMD_SET_RELAY_OFF then "SET RELAY OFF"
  else "UNKNOWN".

(** ** The [float] type of the target: IEEE 754 binary32 *)

Module Float32.

Definition prec : Z := 24%Z.
Definition emax : Z := 128%Z.

(** The value denoted by a 32-bit pattern: sign in bit 31, biased
    exponent in bits 30..23, fraction in bits 22..0. *)
Definition of_bits (x : Z) : spec_float :=
  let s := Z.testbit x 31 in
  let e := Z.land (Z.shiftr x 23) 255 in
  let m := Z.land x (2 ^ 23 - 1) in
  if (e =? 0)%Z then
    match m with
    | Zpos p => S754_finite s p (-149)
    | _ => S754_zero s
    end
  else if (e =? 255)%Z then
    (if (m =? 0)%Z then S754_infinity s else S754_nan)
  else
    match (m + 2 ^ 23)%Z with
    | Zpos p => S754_finite s p (e - 150)
    | _ => S754_nan
    end.

(** Little-endian assembly of the object representation. *)
Fixpoint le_bits (bs : list byte) : Z :=
  match bs with
  | [] => 0%Z
  | b :: bs' => (Z.of_N (Byte.to_N b) + 256 * le_bits bs')%Z
  end.

Definition of_bytes (bs : list byte) : spec_float := of_bits (le_bits bs).

(** Conversion of an [int] operand to [float] (usual arithmetic
    conversions), and the product in single precision. *)
Definition of_int (z : Z) : spec_float := binary_normalize prec emax z 0 false.
Definition mul (x y : spec_float) : spec_float := SFmul prec emax x y.

End Float32.

(** ** Private types *)

(** [homeoffice_data] is declared packed, so its members follow each other
    without holes, and aligned(4), so its size is the packed size rounded
    up to a multiple of 4. *)
Module homeoffice_data.

Definition sizeof_float : nat := 4.
Definition sizeof_uint8_t : nat := 1.

Definition offsetof_voltage : nat := 0.
Definition offsetof_current : nat := offsetof_voltage + sizeof_float.
Definition offsetof_power : nat := offsetof_current + sizeof_float.
Definition offsetof_relay : nat := offsetof_power + sizeof_float.

Definition packed_size : nat := offsetof_relay + sizeof_uint8_t.
Definition alignment : nat := 4.
Definition round_up (n a : nat) : nat := ((n + a - 1) / a) * a.
Definition sizeof : nat := round_up packed_size alignment.

(** Member reads on the bytes of an object of the type. *)
Definition field (off size : nat) (obj : list byte) : list byte :=
  take size (drop off obj).
Definition voltage (obj : list byte) : spec_float :=
  Float32.of_bytes (field offsetof_voltage sizeof_float obj).
Definition current (obj : list byte) : spec_float :=
  Float32.of_bytes (field offsetof_current sizeof_float obj).
Definition power (obj : list byte) : spec_float :=
  Float32.of_bytes (field offsetof_power sizeof_float obj).
Definition relay (obj : list byte) : byte :=
  default x00 (obj !! offsetof_relay).

End homeoffice_data.

(** ** The driver interface and the world *)

(** [struct spi_ioc_transfer] as the program fills it: the transmit
    buffer's contents, the length and the two bus parameters. *)
Record spi_ioc_transfer := {
  tx_buf : list byte;
  len : nat;
  speed_hz : Z;
  bits_per_word : Z
}.

(** The system calls the program makes on the device node.  [D] is the
    state of the kernel side; every call returns its result (negative on
    failure) and the next state.  [SPI_IOC_MESSAGE(1)] also returns the
    bytes clocked in. *)
Class spidev (D : Type) := {
  sys_open : D -> string -> Z * D;
  ioctl_wr_mode : D -> Z -> Z -> Z * D;
  ioctl_wr_bits_per_word : D -> Z -> Z -> Z * D;
  ioctl_wr_max_speed_hz : D -> Z -> Z -> Z * D;
  ioctl_message : D -> Z -> spi_ioc_transfer -> Z * list byte * D;
  sys_close : D -> Z -> D
}.

(** One [printf] call: the format as written in the source and its
    variadic arguments.  A [float] argument is promoted to [double]
    without change of value. *)
Inductive printf_arg :=
| arg_double (x : spec_float)
| arg_str (s : string).

Record world (D : Type) := {
  kernel : D;
  gs_spi_fd : Z;
  gs_homeoffice_data : list byte;
  wire : list spi_ioc_transfer;
  stdout : list (string * list printf_arg);
  stderr : list string
}.
Arguments kernel {D} _.
Arguments gs_spi_fd {D} _.
Arguments gs_homeoffice_data {D} _.
Arguments wire {D} _.
Arguments stdout {D} _.
Arguments stderr {D} _.
Arguments Build_world {D} _ _ _ _ _ _.

(** How a call ends: it returns, the process exits with a status, or a
    [memcpy] leaves the object it was given (undefined behaviour). *)
Inductive outcome (D A : Type) :=
| Ret (a : A) (w : world D)
| Exit (status : Z) (w : world D)
| Fault (w : world D).
Arguments Ret {D A} _ _.
Arguments Exit {D A} _ _.
Arguments Fault {D A} _.

Definition prog (D A : Type) : Type := world D -> outcome D A.

Definition ret {D A} (a : A) : prog D A := fun w => Ret a w.

Definition bind {D A B} (m : prog D A) (k : A -> prog D B) : prog D B :=
  fun w =>
    match m w with
    | Ret a w' => k a w'
    | Exit st w' => Exit st w'
    | Fault w' => Fault w'
    end.

Declare Scope prog_scope.
Delimit Scope prog_scope with prog.
Notation "x <- m ;; k" := (bind m (fun x => k))
  (at level 100, m at next level, right associativity) : prog_scope.
Notation "m ;; k" := (bind m (fun _ => k))
  (at level 100, right associativity) : prog_scope.
Local Open Scope prog_scope.

Section Program.
Context {D : Type} `{!spidev D}.

(** *** Primitive effects *)

Definition with_kernel (k : D) (w : world D) : world D :=
  Build_world k (gs_spi_fd w) (gs_homeoffice_data w) (wire w) (stdout w) (stderr w).
Definition with_fd (fd : Z) (w : world D) : world D :=
  Build_world (kernel w) fd (gs_homeoffice_data w) (wire w) (stdout w) (stderr w).
Definition with_data (d : list byte) (w : world D) : world D :=
  Build_world (kernel w) (gs_spi_fd w) d (wire w) (stdout w) (stderr w).
Definition on_wire (t : spi_ioc_transfer) (w : world D) : world D :=
  Build_world (kernel w) (gs_spi_fd w) (gs_homeoffice_data w)
              (wire w ++ [t]) (stdout w) (stderr w).
Definition on_stdout (ls : list (string * list printf_arg)) (w : world D) : world D :=
  Build_world (kernel w) (gs_spi_fd w) (gs_homeoffice_data w)
              (wire w) (stdout w ++ ls) (stderr w).
Definition on_stderr (msg : string) (w : world D) : world D :=
  Build_world (kernel w) (gs_spi_fd w) (gs_homeoffice_data w)
              (wire w) (stdout w) (stderr w ++ [msg]).

Definition get_data : prog D (list byte) :=
  fun w => Ret (gs_homeoffice_data w) w.

Definition set_data (d : list byte) : prog D unit :=
  fun w => Ret tt (with_data d w).

Definition printf (fmt : string) (args : list printf_arg) : prog D unit :=
  fun w => Ret tt (on_stdout [(fmt, args)] w).

Definition perror (msg : string) : prog D unit :=
  fun w => Ret tt (on_stderr msg w).

Definition exit {A} (status : Z) : prog D A := fun w => Exit status w.

Definition fault {A} : prog D A := fun w => Fault w.

(** [memcpy(dst + doff, src + soff, n)]; [None] when either range leaves
    its object. *)
Definition memcpy (dst : list byte) (doff : nat) (src : list byte) (soff n : nat)
  : option (list byte) :=
  if (doff + n <=? length dst) && (soff + n <=? length src)
  then Some (list_inserts doff (take n (drop soff src)) dst)
  else None.

(** *** [spi_init] *)

Definition sys_open_dev : prog D Z :=
  fun w =>
    let '(fd, k) := sys_open (kernel w) SPI_DEVICE in
    Ret fd (with_fd fd (with_kernel k w)).

Definition ioctl_cfg (call : D -> Z -> Z -> Z * D) (arg : Z) : prog D Z :=
  fun w =>
    let '(r, k) := call (kernel w) (gs_spi_fd w) arg in
    Ret r (with_kernel k w).

Definition spi_init : prog D unit :=
  fd <- sys_open_dev ;;
  (if (fd <? 0)%Z
   then perror "Error opening SPI device" ;; exit 1%Z
   else ret tt) ;;
  r <- ioctl_cfg ioctl_wr_mode SPI_MODE ;;
  (if (r <? 0)%Z
   then perror "Error setting SPI mode" ;; exit 1%Z
   else ret tt) ;;
  r <- ioctl_cfg ioctl_wr_bits_per_word SPI_BITS_PER_WORD ;;
  (if (r <? 0)%Z
   then perror "Error setting SPI bits per word" ;; exit 1%Z
   else ret tt) ;;
  r <- ioctl_cfg ioctl_wr_max_speed_hz SPI_SPEED_HZ ;;
  (if (r <? 0)%Z
   then perror "Error setting SPI speed" ;; exit 1%Z
   else ret tt).

(** *** [spi_transfer] *)

(** The [SPI_IOC_MESSAGE(1)] call: the transfer is recorded on the wire
    and the driver's answer is stored in the first [len] bytes of the
    receive buffer. *)
Definition ioctl_spi_message (transfer : spi_ioc_transfer) (recvbuf : list byte)
  : prog D (Z * list byte) :=
  fun w =>
    let '(r, rx, k) := ioctl_message (kernel w) (gs_spi_fd w) transfer in
    Ret (r, list_inserts 0 (take (len transfer) rx) recvbuf)
        (on_wire transfer (with_kernel k w)).

(** [tx_buf] is the object a non-NULL transmit pointer points to;
    [rx_buf] is the offset inside [gs_homeoffice_data] a non-NULL receive
    pointer points to (every caller passes the address of that object or
    of one of its members).  The [printd] traces expand to nothing unless
    [__DEBUG__] is defined, which the build does not do. *)
Definition spi_transfer (tx_buf : option (list byte)) (rx_buf : option nat)
           (len : nat) : prog D unit :=
  let sendbuf := replicate 20 x00 in
  let recvbuf := replicate 20 x00 in
  sendbuf <- match tx_buf with
             | Some src =>
                 match memcpy sendbuf 0 src 0 len with
                 | Some b => ret b
                 | None => fault
                 end
             | None => ret sendbuf
             end ;;
  let transfer := {| tx_buf := sendbuf;
                     len := 20;
                     speed_hz := SPI_SPEED_HZ;
                     bits_per_word := SPI_BITS_PER_WORD |} in
  reply <- ioctl_spi_message transfer recvbuf ;;
  let recvbuf := snd reply in
  (if (fst reply <? 0)%Z
   then perror "Error transferring SPI data" ;; exit 1%Z
   else ret tt) ;;
  match rx_buf with
  | Some off =>
      data <- get_data ;;
      match memcpy data off recvbuf 3 len with
      | Some data' => set_data data'
      | None => fault
      end
  | None => ret tt
  end.

(** *** [spi_write], [spi_read] *)

Definition spi_write (cmd : byte) : prog D unit :=
  spi_transfer (Some [cmd]) None 1.

Definition spi_read (rx_buf : nat) (len : nat) : prog D unit :=
  spi_transfer None (Some rx_buf) len.

(** *** The operations *)

Import homeoffice_data.

Definition on_off (relay : byte) : string :=
  if Byte.eqb relay x00 then "OFF" else "ON".

Definition spi_read_voltage : prog D unit :=
  spi_write CMD_READ_VOLTAGE ;;
  spi_read offsetof_voltage sizeof_float ;;
  d <- get_data ;;
  printf "Voltage: %05.2f V\n" [arg_double (voltage d)].

Definition spi_read_current : prog D unit :=
  spi_write CMD_READ_CURRENT ;;
  spi_read offsetof_current sizeof_float ;;
  d <- get_data ;;
  printf "Current: %05.2f mA\n"
         [arg_double (Float32.mul (current d) (Float32.of_int 1000))].

Definition spi_read_power : prog D unit :=
  spi_write CMD_READ_POWER ;;
  spi_read offsetof_power sizeof_float ;;
  d <- get_data ;;
  printf "Power: %05.2f mW\n"
         [arg_double (Float32.mul (power d) (Float32.of_int 1000))].

Definition spi_read_all : prog D unit :=
  spi_write CMD_READ_ALL ;;
  spi_read 0 sizeof ;;
  d <- get_data ;;
  printf "Voltage: %05.2f mV\n" [arg_double (voltage d)] ;;
  printf "Current: %05.2f mA\n"
         [arg_double (Float32.mul (current d) (Float32.of_int 1000))] ;;
  printf "Power: %05.2f mW\n"
         [arg_double (Float32.mul (power d) (Float32.of_int 1000))] ;;
  printf "Relay: %s\n" [arg_str (on_off (relay d))].

Definition spi_read_relay : prog D unit :=
  spi_write CMD_READ_RELAY ;;
  spi_read offsetof_relay sizeof_uint8_t ;;
  d <- get_data ;;
  printf "Relay: %s\n" [arg_str (on_off (relay d))].

Definition spi_set_relay (state : byte) : prog D unit :=
  spi_write (if Byte.eqb state x00 then CMD_SET_RELAY_OFF else CMD_SET_RELAY_ON) ;;
  spi_read offsetof_relay sizeof_uint8_t ;;
  d <- get_data ;;
  printf "Relay: %s\n" [arg_str (on_off (relay d))].

(** *** [main] *)

Definition menu : prog D unit :=
  printf "Choices:\n" [] ;;
  printf " 1: Read Power\n" [] ;;
  printf " 2: Read Current\n" [] ;;
  printf " 3: Read Voltage\n" [] ;;
  printf " 4: Read Relay\n" [] ;;
  printf " 5: Read All\n" [] ;;
  printf " 6: Set Relay On\n" [] ;;
  printf " 7: Set Relay Off\n" [] ;;
  printf " 8: Exit\n\n" [] ;;
  printf "Enter your choice: " [].

Definition switch (choice : Z) : prog D unit :=
  match choice with
  | 1%Z => spi_read_power
  | 2%Z => spi_read_current
  | 3%Z => spi_read_voltage
  | 4%Z => spi_read_relay
  | 5%Z => spi_read_all
  | 6%Z => spi_set_relay x01
  | 7%Z => spi_set_relay x00
  | 8%Z => printf "Exiting...\n" []
  | _ => printf "Invalid choice\n" []
  end.

(** The loop of [main] over the choices read by [scanf] so far.  The
    result tells whether the loop was left (choice 8) or the program is
    waiting in [scanf] for the next choice.  Clearing the screen and the
    [getchar] calls that drain the line have no effect on the world. *)
Fixpoint main_loop (input : list Z) : prog D bool :=
  set_data (replicate sizeof x00) ;;
  menu ;;
  match input with
  | [] => ret false
  | choice :: input' =>
      printf "\n" [] ;;
      switch choice ;;
      printf "\nPress [ENTER] to continue...." [] ;;
      if (choice =? 8)%Z then ret true else main_loop input'
  end.

Definition sys_close_dev : prog D unit :=
  fun w => Ret tt (with_kernel (sys_close (kernel w) (gs_spi_fd w)) w).

Definition main (input : list Z) : prog D (option Z) :=
  spi_init ;;
  left <- main_loop input ;;
  if left : bool then sys_close_dev ;; ret (Some 0%Z) else ret None.

(** The world at process start: the statics hold their initialisers. *)
Definition initial_world (k : D) : world D :=
  Build_world k (-1)%Z (replicate sizeof x00) [] [] [].

(** *** The dispatcher's operations, by name *)

Inductive operation :=
| readVoltage | readCurrent | readPower | readRelay | readAll
| setRelay (state : byte).

Definition execute (op : operation) : prog D unit :=
  match op with
  | readVoltage => spi_read_voltage
  | readCurrent => spi_read_current
  | readPower => spi_read_power
  | readRelay => spi_read_relay
  | readAll => spi_read_all
  | setRelay state => spi_set_relay state
  end.

(** The command code an operation writes, and the destination and
    length it passes to [spi_read]. *)
Definition command_of (op : operation) : byte :=
  match op with
  | readVoltage => CMD_READ_VOLTAGE
  | readCurrent => CMD_READ_CURRENT
  | readPower => CMD_READ_POWER
  | readRelay => CMD_READ_RELAY
  | readAll => CMD_READ_ALL
  | setRelay state =>
      if Byte.eqb state x00 then CMD_SET_RELAY_OFF else CMD_SET_RELAY_ON
  end.

Definition rx_offset_of (op : operation) : nat :=
  match op with
  | readVoltage => offsetof_voltage
  | readCurrent => offsetof_current
  | readPower => offsetof_power
  | readRelay => offsetof_relay
  | readAll => 0
  | setRelay _ => offsetof_relay
  end.

Definition rx_len_of (op : operation) : nat :=
  match op with
  | readVoltage | readCurrent | readPower => sizeof_float
  | readRelay | setRelay _ => sizeof_uint8_t
  | readAll => sizeof
  end.

(** What an operation prints from the cached data. *)
Definition report (op : operation) (d : list byte) : list (string * list printf_arg) :=
  let mA := ("Current: %05.2f mA\n",
             [arg_double (Float32.mul (current d) (Float32.of_int 1000))]) in
  let mW := ("Power: %05.2f mW\n",
             [arg_double (Float32.mul (power d) (Float32.of_int 1000))]) in
  let rl := ("Relay: %s\n", [arg_str (on_off (relay d))]) in
  match op with
  | readVoltage => [("Voltage: %05.2f V\n", [arg_double (voltage d)])]
  | readCurrent => [mA]
  | readPower => [mW]
  | readRelay | setRelay _ => [rl]
  | readAll => [("Voltage: %05.2f mV\n", [arg_double (voltage d)]); mA; mW; rl]
  end.

End Program.

(** ** Frame codec, as the source computes it *)

(** The frame [spi_write] puts on the wire and the payload slice
    [spi_transfer] copies out of a received frame. *)
Definition encodeCommand (cmd : byte) : list byte :=
  list_inserts 0 (take 1 (drop 0 [cmd])) (replicate 20 x00).

Definition decodePayload (frame : list byte) (len : nat) : list byte :=
  take len (drop 3 frame).

(** The receive buffer after the driver has answered [rx]. *)
Definition recvbuf_of (rx : list byte) : list byte :=
  list_inserts 0 (take 20 rx) (replicate 20 x00).

(** The transfer descriptor of every exchange. *)
Definition transfer_of (sendbuf : list byte) : spi_ioc_transfer :=
  {| tx_buf := sendbuf; len := 20;
     speed_hz := SPI_SPEED_HZ; bits_per_word := SPI_BITS_PER_WORD |}.

(** ** A scripted driver

    A kernel side that answers from a script: fixed results for [open]
    and the three configuration calls, and one scripted answer per
    message (failure once the script is used up). *)
Record script := {
  open_result : Z;
  mode_result : Z;
  bits_result : Z;
  speed_result : Z;
  replies : list (Z * list byte)
}.

#[global] Instance scripted : spidev script := {|
  sys_open k _ := (open_result k, k);
  ioctl_wr_mode k _ _ := (mode_result k, k);
  ioctl_wr_bits_per_word k _ _ := (bits_result k, k);
  ioctl_wr_max_speed_hz k _ _ := (speed_result k, k);
  ioctl_message k _ _ :=
    match replies k with
    | [] => ((-1)%Z, [], k)
    | (r, rx) :: rest =>
        (r, rx,
         {| open_result := open_result k; mode_result := mode_result k;
            bits_result := bits_result k; speed_result := speed_result k;
            replies := rest |})
    end;
  sys_close k _ := k
|}.

Definition healthy (rs : list (Z * list byte)) : script :=
  {| open_result := 3; mode_result := 0; bits_result := 0; speed_result := 0;
     replies := rs |}.

(** The process after a successful start-up, facing a peripheral whose
    answer to the command frame is [rx1] and to the following read [rx2]. *)
Definition serving (rx1 rx2 : list byte) : world script :=
  initial_world (healthy [(0%Z, rx1); (0%Z, rx2)]).

(** Reply frames: three header bytes, then the payload.  [half_reply]
    carries the float 0.5 (bits 0x3F000000) and [five_reply] the float 5.0
    (bits 0x40A00000), least significant byte first; [relay_reply] is zero
    but for frame byte 15. *)
Definition half_reply : list byte := [x00; x00; x02; x00; x00; x00; x3f].
Definition five_reply : list byte := [x00; x00; x01; x00; x00; xa0; x40].
Definition zero_reply : list byte := replicate 20 x00.
Definition relay_reply : list byte := <[15 := x01]> (replicate 20 x00).

(** The process about to read, the command already written. *)
Definition reading (rx : list byte) : world script :=
  initial_world (healthy [(0%Z, rx)]).

(** A session on a peripheral that answers four exchanges. *)
Definition session : world script :=
  initial_world (healthy [(0%Z, []); (0%Z, five_reply); (0%Z, []); (0%Z, relay_reply)]).

(** A peripheral whose read fails after the command went through, and a
    device node that cannot be opened. *)
Definition read_failing : world script :=
  initial_world (healthy [(0%Z, []); ((-1)%Z, five_reply)]).
Definition unavailable : world script :=
  initial_world {| open_result := (-1)%Z; mode_result := 0%Z; bits_result := 0%Z;
                   speed_result := 0%Z; replies := [(0%Z, []); (0%Z, five_reply)] |}.

(** ** Vocabulary of the statements *)

Section Vocabulary.
Context {D : Type} `{!spidev D}.
Import homeoffice_data.

Definition world_of {A} (o : outcome D A) : world D :=
  match o with
  | Ret _ w => w
  | Exit _ w => w
  | Fault w => w
  end.

Definition TRANSFER_DIAGNOSTIC : string := "Error transferring SPI data".

(** The driver's answer to one exchange of [sendbuf] in world [w]: its
    result, the frame left in the receive buffer, and the world once the
    exchange is on the wire. *)
Definition answer (sendbuf : list byte) (w : world D) : Z * list byte * D :=
  ioctl_message (kernel w) (gs_spi_fd w) (transfer_of sendbuf).
Definition result_of (a : Z * list byte * D) : Z := fst (fst a).
Definition frame_of (a : Z * list byte * D) : list byte := recvbuf_of (snd (fst a)).
Definition exchanged (sendbuf : list byte) (w : world D) : world D :=
  on_wire (transfer_of sendbuf) (with_kernel (snd (answer sendbuf w)) w).

(** The exchange [spi_write] makes for an operation, and the one the
    following [spi_read] makes. *)
Definition write_result (op : operation) (w : world D) : Z :=
  result_of (answer (encodeCommand (command_of op)) w).
Definition written (op : operation) (w : world D) : world D :=
  exchanged (encodeCommand (command_of op)) w.
Definition read_result (op : operation) (w : world D) : Z :=
  result_of (answer (replicate 20 x00) (written op w)).
Definition read_frame (op : operation) (w : world D) : list byte :=
  frame_of (answer (replicate 20 x00) (written op w)).

(** The data an operation caches from the frame it reads. *)
Definition cached (op : operation) (w : world D) : list byte :=
  list_inserts (rx_offset_of op)
               (decodePayload (read_frame op w) (rx_len_of op))
               (gs_homeoffice_data w).

(** The world is well formed when the static object has its size. *)
Definition well_formed (w : world D) : Prop :=
  length (gs_homeoffice_data w) = sizeof.

(** A transfer failure during an operation: the first exchange fails, or
    it succeeds and the second fails. *)
Definition transfer_fails (op : operation) (w : world D) : bool :=
  (write_result op w <? 0)%Z || (read_result op w <? 0)%Z.

(** The fixed frame size on the wire. *)
Definition twenty (t : spi_ioc_transfer) : Prop :=
  len t = 20 /\ length (tx_buf t) = 20.

(** Every transfer on the wire so far has the fixed frame size. *)
Definition framed (w : world D) : Prop := Forall twenty (wire w).

(** A property of the world that a computation keeps, however it ends. *)
Definition keeps {A} (P : world D -> Prop) (m : prog D A) : Prop :=
  forall w, P w -> P (world_of (m w)).

(** A computation that leaves the wire alone. *)
Definition quiet {A} (m : prog D A) : Prop :=
  forall w, wire (world_of (m w)) = wire w.

(** The first start-up step that fails, by its diagnostic. *)
Definition startup_failure (w : world D) : option string :=
  let '(fd, k1) := sys_open (kernel w) SPI_DEVICE in
  if (fd <? 0)%Z then Some "Error opening SPI device" else
  let '(r, k2) := ioctl_wr_mode k1 fd SPI_MODE in
  if (r <? 0)%Z then Some "Error setting SPI mode" else
  let '(r, k3) := ioctl_wr_bits_per_word k2 fd SPI_BITS_PER_WORD in
  if (r <? 0)%Z then Some "Error setting SPI bits per word" else
  let '(r, k4) := ioctl_wr_max_speed_hz k3 fd SPI_SPEED_HZ in
  if (r <? 0)%Z then Some "Error setting SPI speed" else None.

End Vocabulary.

(** ** A tracing driver

    A kernel side that records every system call it receives and answers
    by a policy, a function of the calls so far and the call at hand.  Any
    deterministic driver is such a policy, so what holds of the trace for
    every policy holds of every run. *)
Inductive syscall :=
| call_open (path : string)
| call_wr_mode (fd mode : Z)
| call_wr_bits_per_word (fd bits : Z)
| call_wr_max_speed_hz (fd hz : Z)
| call_message (fd : Z) (t : spi_ioc_transfer)
| call_close (fd : Z).

Record tracer := {
  trace : list syscall;
  respond : list syscall -> syscall -> Z * list byte
}.




(** A process started on a kernel that has seen no call yet. *)
Definition fresh (policy : list syscall -> syscall -> Z * list byte) : world tracer :=
  initial_world {| trace := []; respond := policy |}.




(** ** Vocabulary of the statements about [main] *)

Section MainVocabulary.
Context {D : Type} `{!spidev D}.
Import homeoffice_data.

(** The operation a menu choice stands for. *)
Definition menu_operation (choice : Z) : option operation :=
  match choice with
  | 1%Z => Some readPower
  | 2%Z => Some readCurrent
  | 3%Z => Some readVoltage
  | 4%Z => Some readRelay
  | 5%Z => Some readAll
  | 6%Z => Some (setRelay x01)
  | 7%Z => Some (setRelay x00)
  | _ => None
  end.


(** What [menu] prints. *)
Definition menu_lines : list (string * list printf_arg) :=
  [("Choices:\n", []); (" 1: Read Power\n", []); (" 2: Read Current\n", []);
   (" 3: Read Voltage\n", []); (" 4: Read Relay\n", []); (" 5: Read All\n", []);
   (" 6: Set Relay On\n", []); (" 7: Set Relay Off\n", []); (" 8: Exit\n\n", []);
   ("Enter your choice: ", [])].

(** The world of an iteration of the loop: waiting in [scanf], with the
    cached data cleared and the menu printed; with the choice read; and
    after the action, at the pause. *)
Definition at_prompt (w : world D) : world D :=
  on_stdout menu_lines (with_data (replicate sizeof x00) w).
Definition chosen (w : world D) : world D :=
  on_stdout [("\n", [])] (at_prompt w).
Definition paused (w : world D) : world D :=
  on_stdout [("\nPress [ENTER] to continue....", [])] w.

(** The frames the program sends: a command code followed by zeros, or
    zeros only. *)
Definition wire_frame (t : spi_ioc_transfer) : Prop :=
  t = transfer_of (replicate 20 x00)
  \/ exists cmd, In cmd command_codes /\ t = transfer_of (encodeCommand cmd).

(** The diagnostics the program can write. *)
Definition diagnostics : list string :=
  ["Error opening SPI device"; "Error setting SPI mode";
   "Error setting SPI bits per word"; "Error setting SPI speed";
   "Error transferring SPI data"].

(** A call ends well when it does not fault and exits with status 1 only. *)
Definition ends_well {A} (o : outcome D A) : Prop :=
  match o with
  | Ret _ _ => True
  | Exit st _ => st = 1%Z
  | Fault _ => False
  end.

End MainVocabulary.

(** ** How [spi_transfer] runs *)

Section Transfer.
Context {D : Type} `{!spidev D}.
Import homeoffice_data.

Lemma spi_write_eq (cmd : byte) (w : world D) :
  spi_write cmd w =
  if (result_of (answer (encodeCommand cmd) w) <? 0)%Z
  then Exit 1%Z (on_stderr TRANSFER_DIAGNOSTIC (exchanged (encodeCommand cmd) w))
  else Ret tt (exchanged (encodeCommand cmd) w).
Proof.
  unfold spi_write, spi_transfer, exchanged, result_of, answer.
  change (memcpy (replicate 20 x00) 0 [cmd] 0 1) with (Some (encodeCommand cmd)).
  unfold bind at 1. unfold ret at 1. cbn beta iota.
  fold (transfer_of (encodeCommand cmd)).
  unfold bind at 1. unfold ioctl_spi_message.
  destruct (ioctl_message _ _ _) as [[r rx] k]. cbn [fst snd].
  destruct (r <? 0)%Z; reflexivity.
Qed.

Lemma spi_read_eq (off n : nat) (w : world D) :
  spi_read off n w =
  if (result_of (answer (replicate 20 x00) w) <? 0)%Z
  then Exit 1%Z (on_stderr TRANSFER_DIAGNOSTIC (exchanged (replicate 20 x00) w))
  else match memcpy (gs_homeoffice_data w) off
                    (frame_of (answer (replicate 20 x00) w)) 3 n with
       | Some d => Ret tt (with_data d (exchanged (replicate 20 x00) w))
       | None => Fault (exchanged (replicate 20 x00) w)
       end.
Proof.
  unfold spi_read, spi_transfer, exchanged, result_of, frame_of, answer, recvbuf_of.
  unfold bind at 1. unfold ret at 1. cbn beta iota.
  fold (transfer_of (replicate 20 x00)).
  unfold bind at 1. unfold ioctl_spi_message.
  destruct (ioctl_message _ _ _) as [[r rx] k]. cbn [fst snd len transfer_of].
  destruct (r <? 0)%Z; [reflexivity|].
  unfold bind, ret, get_data, set_data, fault.
  cbn [on_wire with_kernel gs_homeoffice_data].
  destruct (memcpy _ _ _ _ _); reflexivity.
Qed.

End Transfer.

(** ** How an operation runs *)

Section Operations.
Context {D : Type} `{!spidev D}.
Import homeoffice_data.

Lemma on_stdout_app (l1 l2 : list (string * list printf_arg)) (w : world D) :
  on_stdout l2 (on_stdout l1 w) = on_stdout (l1 ++ l2) w.
Proof. unfold on_stdout; cbn. by rewrite <- (assoc_L (++)). Qed.

(** Every operation is a write of its command, a read into its member
    and the report of the cached data: three ways to end. *)
Lemma execute_eq (op : operation) (w : world D) :
  execute op w =
  if (write_result op w <? 0)%Z
  then Exit 1%Z (on_stderr TRANSFER_DIAGNOSTIC (written op w))
  else if (read_result op w <? 0)%Z
  then Exit 1%Z (on_stderr TRANSFER_DIAGNOSTIC
                           (exchanged (replicate 20 x00) (written op w)))
  else match memcpy (gs_homeoffice_data w) (rx_offset_of op)
                    (read_frame op w) 3 (rx_len_of op) with
       | Some d => Ret tt (on_stdout (report op d)
                     (with_data d (exchanged (replicate 20 x00) (written op w))))
       | None => Fault (exchanged (replicate 20 x00) (written op w))
       end.
Proof.
  unfold write_result, read_result, read_frame, written.
  destruct op; cbn [execute command_of rx_offset_of rx_len_of report];
    unfold spi_read_voltage, spi_read_current, spi_read_power, spi_read_relay,
      spi_read_all, spi_set_relay;
    (unfold bind at 1; rewrite spi_write_eq;
     destruct (result_of (answer (encodeCommand _) w) <? 0)%Z; [reflexivity|];
     unfold bind at 1; rewrite spi_read_eq;
     destruct (result_of (answer (replicate 20 x00) _) <? 0)%Z; [reflexivity|];
     change (gs_homeoffice_data (exchanged _ w)) with (gs_homeoffice_data w);
     destruct (memcpy _ _ _ _ _) as [d|]; [|reflexivity];
     unfold bind, get_data, printf; cbn beta iota;
     rewrite ?on_stdout_app; reflexivity).
Qed.

End Operations.

(** ** The frame codec *)

Section Codec.
Context {D : Type} `{!spidev D}.
Import homeoffice_data.

Lemma encodeCommand_eq (cmd : byte) : encodeCommand cmd = cmd :: replicate 19 x00.
Proof. reflexivity. Qed.

Lemma recvbuf_of_length (rx : list byte) : length (recvbuf_of rx) = 20.
Proof. unfold recvbuf_of. by rewrite length_inserts, length_replicate. Qed.

Lemma frame_of_length (a : Z * list byte * D) : length (frame_of a) = 20.
Proof. apply recvbuf_of_length. Qed.

Lemma decodePayload_length (frame : list byte) (n : nat) :
  3 + n <= length frame -> length (decodePayload frame n) = n.
Proof.
  intros Hn. unfold decodePayload. rewrite length_take, length_drop. lia.
Qed.

Lemma decodePayload_lookup (frame : list byte) (n i : nat) :
  i < n -> decodePayload frame n !! i = frame !! (3 + i).
Proof.
  intros Hi. unfold decodePayload. by rewrite lookup_take_lt, lookup_drop.
Qed.

Lemma decodePayload_header (h g body : list byte) (n : nat) :
  length h = 3 -> length g = 3 ->
  decodePayload (h ++ body) n = decodePayload (g ++ body) n.
Proof.
  intros Hh Hg. unfold decodePayload.
  rewrite <- Hh at 1. rewrite <- Hg. by rewrite !drop_app_length.
Qed.

Lemma memcpy_Some (dst src d : list byte) (doff soff n : nat) :
  memcpy dst doff src soff n = Some d ->
  d = list_inserts doff (take n (drop soff src)) dst
  /\ doff + n <= length dst /\ soff + n <= length src.
Proof.
  unfold memcpy. intros Hm.
  destruct (doff + n <=? length dst) eqn:Hd; [|discriminate].
  destruct (soff + n <=? length src) eqn:Hs; [|discriminate].
  apply Nat.leb_le in Hd, Hs. cbn in Hm. by inversion Hm.
Qed.

Lemma memcpy_in_bounds (dst src : list byte) (doff soff n : nat) :
  doff + n <= length dst -> soff + n <= length src ->
  memcpy dst doff src soff n = Some (list_inserts doff (take n (drop soff src)) dst).
Proof.
  intros Hd Hs. unfold memcpy.
  apply Nat.leb_le in Hd, Hs. by rewrite Hd, Hs.
Qed.

Lemma field_inserts (dst payload : list byte) (off : nat) :
  off + length payload <= length dst ->
  field off (length payload) (list_inserts off payload dst) = payload.
Proof.
  intros Hb. unfold field. apply list_eq. intros i.
  destruct (decide (i < length payload)) as [Hi|Hi].
  - rewrite lookup_take_lt, lookup_drop by done.
    rewrite list_lookup_inserts by lia. f_equal. lia.
  - rewrite lookup_take_ge by lia. symmetry. apply lookup_ge_None. lia.
Qed.

End Codec.

(** ** What goes on the wire *)

Section Wire.
Context {D : Type} `{!spidev D}.
Import homeoffice_data.

Lemma keeps_bind {A B} (P : world D -> Prop) (m : prog D A) (k : A -> prog D B) :
  keeps P m -> (forall a, keeps P (k a)) -> keeps P (bind m k).
Proof.
  intros Hm Hk w Hw. unfold bind. specialize (Hm w Hw).
  destruct (m w) as [a w'|st w'|w']; cbn in *; [by apply Hk|done|done].
Qed.

Lemma quiet_keeps {A} (Q : list spi_ioc_transfer -> Prop) (m : prog D A) :
  quiet m -> keeps (fun w => Q (wire w)) m.
Proof. intros Hq w Hw. by rewrite Hq. Qed.

Lemma quiet_bind {A B} (m : prog D A) (k : A -> prog D B) :
  quiet m -> (forall a, quiet (k a)) -> quiet (bind m k).
Proof.
  intros Hm Hk w. unfold bind. specialize (Hm w).
  destruct (m w) as [a w'|st w'|w']; cbn in *; [by rewrite Hk|done|done].
Qed.

Lemma quiet_ret {A} (a : A) : quiet (D:=D) (ret a).
Proof. by intros w. Qed.
Lemma quiet_exit {A} (st : Z) : quiet (D:=D) (A:=A) (exit st).
Proof. by intros w. Qed.
Lemma quiet_printf fmt args : quiet (D:=D) (printf fmt args).
Proof. by intros w. Qed.
Lemma quiet_perror msg : quiet (D:=D) (perror msg).
Proof. by intros w. Qed.
Lemma quiet_get_data : quiet (D:=D) get_data.
Proof. by intros w. Qed.
Lemma quiet_set_data d : quiet (D:=D) (set_data d).
Proof. by intros w. Qed.
Lemma quiet_sys_open_dev : quiet (D:=D) sys_open_dev.
Proof. intros w. unfold sys_open_dev. by destruct (sys_open _ _). Qed.
Lemma quiet_ioctl_cfg call arg : quiet (D:=D) (ioctl_cfg call arg).
Proof. intros w. unfold ioctl_cfg. by destruct (call _ _ _). Qed.
Lemma quiet_sys_close_dev : quiet (D:=D) sys_close_dev.
Proof. by intros w. Qed.

Lemma quiet_guard (r : Z) (msg : string) :
  quiet (D:=D) (if (r <? 0)%Z then perror msg ;; exit 1%Z else ret tt).
Proof.
  destruct (r <? 0)%Z; [|apply quiet_ret].
  apply quiet_bind; [apply quiet_perror|intros; apply quiet_exit].
Qed.

Lemma quiet_spi_init : quiet (D:=D) spi_init.
Proof.
  unfold spi_init.
  repeat (apply quiet_bind; [|intros]);
    auto using quiet_sys_open_dev, quiet_ioctl_cfg, quiet_guard.
Qed.

Lemma quiet_menu : quiet (D:=D) menu.
Proof.
  unfold menu. repeat (apply quiet_bind; [apply quiet_printf|intros]).
  apply quiet_printf.
Qed.

Local Ltac one_frame sb Hsb :=
  exists [transfer_of sb]; split; [reflexivity|repeat constructor; exact Hsb].

(** One call of [spi_transfer] puts at most one transfer on the wire, and
    it is a 20-byte one whatever [len] the caller asked for. *)
Lemma spi_transfer_wire tx rx n (w : world D) :
  exists ts, wire (world_of (spi_transfer tx rx n w)) = wire w ++ ts
             /\ Forall twenty ts.
Proof.
  unfold spi_transfer. unfold bind at 1.
  destruct tx as [src|].
  - destruct (memcpy (replicate 20 x00) 0 src 0 n) as [b|] eqn:Hb.
    + apply memcpy_Some in Hb as (Hb & _ & _).
      assert (Hlen : length b = 20)
        by (rewrite Hb, length_inserts, length_replicate; done).
      clear Hb. unfold ret at 1. cbn beta iota.
      unfold bind, ioctl_spi_message.
      destruct (ioctl_message _ _ _) as [[r rx'] k]. cbn [fst snd].
      fold (transfer_of b).
      destruct (r <? 0)%Z; [one_frame b Hlen|].
      destruct rx as [off|]; [|one_frame b Hlen].
      unfold ret, get_data. destruct (memcpy _ _ _ _ _); one_frame b Hlen.
    + exists []. unfold fault. cbn. by rewrite app_nil_r.
  - unfold ret at 1. cbn beta iota.
    unfold bind, ioctl_spi_message.
    destruct (ioctl_message _ _ _) as [[r rx'] k]. cbn [fst snd].
    fold (transfer_of (replicate 20 x00)).
    destruct (r <? 0)%Z; [one_frame (replicate 20 x00) (eq_refl 20)|].
    destruct rx as [off|]; [|one_frame (replicate 20 x00) (eq_refl 20)].
    unfold ret, get_data. destruct (memcpy _ _ _ _ _); one_frame (replicate 20 x00) (eq_refl 20).
Qed.

Lemma keeps_spi_transfer tx rx n : keeps framed (spi_transfer tx rx n).
Proof.
  intros w Hw. unfold framed.
  destruct (spi_transfer_wire tx rx n w) as (ts & -> & Hts).
  by apply Forall_app.
Qed.

Lemma quiet_framed {A} (m : prog D A) : quiet m -> keeps framed m.
Proof. apply (quiet_keeps (Forall twenty)). Qed.

Local Ltac framed_steps :=
  repeat match goal with
         | |- keeps _ (bind _ _) => apply keeps_bind; [|intros]
         end;
  first [ apply keeps_spi_transfer
        | apply quiet_framed;
          first [ apply quiet_printf | apply quiet_get_data | apply quiet_set_data
                | apply quiet_ret | apply quiet_menu | apply quiet_spi_init
                | apply quiet_sys_close_dev ] ].

Lemma keeps_execute (op : operation) : keeps framed (execute op).
Proof.
  destruct op; cbn [execute];
    unfold spi_read_voltage, spi_read_current, spi_read_power, spi_read_relay,
      spi_read_all, spi_set_relay, spi_write, spi_read;
    framed_steps.
Qed.

Lemma keeps_switch (choice : Z) : keeps framed (switch choice).
Proof.
  assert (Hinv : keeps framed (printf "Invalid choice\n" []))
    by apply quiet_framed, quiet_printf.
  unfold switch.
  destruct choice as [|p|p]; try exact Hinv.
  repeat (match goal with q : positive |- _ => destruct q end; try exact Hinv);
    first [ apply (keeps_execute readPower) | apply (keeps_execute readCurrent)
          | apply (keeps_execute readVoltage) | apply (keeps_execute readRelay)
          | apply (keeps_execute readAll) | apply (keeps_execute (setRelay x01))
          | apply (keeps_execute (setRelay x00))
          | apply quiet_framed, quiet_printf ].
Qed.

Lemma keeps_main_loop (input : list Z) : keeps framed (main_loop input).
Proof.
  induction input as [|choice input IH]; cbn [main_loop].
  - framed_steps.
  - repeat match goal with
           | |- keeps _ (bind _ _) => apply keeps_bind; [|intros]
           end;
      try (apply quiet_framed;
           first [apply quiet_printf|apply quiet_set_data|apply quiet_menu]).
    + apply keeps_switch.
    + destruct (choice =? 8)%Z; [apply quiet_framed, quiet_ret|exact IH].
Qed.

Lemma keeps_main (input : list Z) : keeps framed (main input).
Proof.
  unfold main. apply keeps_bind; [apply quiet_framed, quiet_spi_init|intros _].
  apply keeps_bind; [apply keeps_main_loop|intros left].
  destruct left; framed_steps.
Qed.

End Wire.

(** ** The dispatcher's round trips *)

Section RoundTrip.
Context {D : Type} `{!spidev D}.
Import homeoffice_data.

Lemma rx_bounds (op : operation) :
  3 + rx_len_of op <= 20 /\ rx_offset_of op + rx_len_of op <= sizeof.
Proof. destruct op; vm_compute; lia. Qed.

Lemma execute_ok (op : operation) (w : world D) :
  well_formed w -> transfer_fails op w = false ->
  execute op w =
  Ret tt (on_stdout (report op (cached op w))
            (with_data (cached op w)
               (exchanged (replicate 20 x00) (written op w)))).
Proof.
  intros Hwf Hok. apply orb_false_elim in Hok as [Hw Hr].
  rewrite execute_eq, Hw, Hr.
  destruct (rx_bounds op) as [Hsrc Hdst].
  rewrite memcpy_in_bounds; [done|by rewrite Hwf|].
  unfold read_frame. by rewrite frame_of_length.
Qed.

Lemma execute_failed (op : operation) (w : world D) :
  transfer_fails op w = true ->
  exists w', execute op w = Exit 1%Z w'
             /\ gs_homeoffice_data w' = gs_homeoffice_data w
             /\ stdout w' = stdout w
             /\ stderr w' = stderr w ++ [TRANSFER_DIAGNOSTIC].
Proof.
  intros Hf. rewrite execute_eq. unfold transfer_fails in Hf.
  destruct (write_result op w <? 0)%Z; [by eexists|].
  cbn in Hf. rewrite Hf. by eexists.
Qed.

Lemma execute_no_fault (op : operation) (w w' : world D) :
  well_formed w -> execute op w <> Fault w'.
Proof.
  intros Hwf. destruct (transfer_fails op w) eqn:Hf.
  - destruct (execute_failed op w Hf) as (w'' & -> & _). discriminate.
  - rewrite (execute_ok op w Hwf Hf). discriminate.
Qed.

(** When [spi_transfer] ends the process, nothing was copied out. *)
Lemma spi_transfer_exit tx rx n (w w' : world D) (st : Z) :
  spi_transfer tx rx n w = Exit st w' ->
  st = 1%Z
  /\ gs_homeoffice_data w' = gs_homeoffice_data w
  /\ stdout w' = stdout w
  /\ stderr w' = stderr w ++ [TRANSFER_DIAGNOSTIC].
Proof.
  unfold spi_transfer. unfold bind at 1.
  destruct tx as [src|];
    [destruct (memcpy (replicate 20 x00) 0 src 0 n) as [b|];
       [|unfold fault; discriminate]|];
    unfold ret at 1; cbn beta iota;
    unfold bind, ioctl_spi_message;
    destruct (ioctl_message _ _ _) as [[r rx'] k]; cbn [fst snd];
    (destruct (r <? 0)%Z;
     [cbn; intros [= <- <-]; done|]);
    (destruct rx as [off|]; [|discriminate]);
    unfold ret, get_data, set_data, fault;
    destruct (memcpy _ _ _ _ _); discriminate.
Qed.

Lemma field_decodePayload (frame : list byte) (off n m : nat) :
  off + n <= m ->
  field off n (decodePayload frame m) = take n (drop (3 + off) frame).
Proof.
  intros Hb. unfold field, decodePayload. apply list_eq. intros i.
  destruct (decide (i < n)) as [Hi|Hi].
  - rewrite !lookup_take_lt, !lookup_drop, lookup_take_lt, lookup_drop by lia.
    f_equal; lia.
  - by rewrite !lookup_take_ge by lia.
Qed.

Lemma decodePayload_one (frame : list byte) :
  length frame = 20 ->
  decodePayload frame 1 = [default x00 (frame !! 3)].
Proof.
  intros Hl. do 4 (destruct frame as [|? frame]; [discriminate|]). done.
Qed.

Lemma cached_readAll (w : world D) :
  well_formed w -> cached readAll w = decodePayload (read_frame readAll w) sizeof.
Proof.
  intros Hwf. unfold cached. cbn [rx_offset_of rx_len_of].
  rewrite <- (app_nil_r (decodePayload _ _)) at 1.
  apply list_inserts_0_l. unfold well_formed in Hwf. rewrite Hwf.
  apply decodePayload_length.
  unfold read_frame. rewrite frame_of_length. apply (rx_bounds readAll).
Qed.

End RoundTrip.

(** ** The claims *)

Section Claims.
Context {D : Type} `{!spidev D}.
Import homeoffice_data.

(** C1, as amended: an operation that returns has made exactly two
    fixed-size exchanges, in this order: the command frame, whose reply is
    dropped, and an all-zero frame, whose reply supplies the cached data
    the operation reports.  It returns whenever no transfer fails. *)
Theorem execute_two_exchanges (op : operation) (w : world D) :
  well_formed w -> transfer_fails op w = false ->
  exists w', execute op w = Ret tt w'
    /\ wire w' = wire w ++ [transfer_of (encodeCommand (command_of op));
                            transfer_of (replicate 20 x00)]
    /\ gs_homeoffice_data w' = cached op w
    /\ stdout w' = stdout w ++ report op (cached op w).
Proof.
  intros Hwf Hok. eexists. split; [by apply execute_ok|].
  cbn. by rewrite <- (assoc_L (++)).
Qed.

(** C4: for every command code, and so for the seven of the table,
    [spi_write] puts on the wire one 20-byte frame whose byte 0 is the code
    and whose other 19 bytes are zero. *)
Theorem spi_write_frame (cmd : byte) (w : world D) :
  wire (world_of (spi_write cmd w)) = wire w ++ [transfer_of (encodeCommand cmd)]
  /\ encodeCommand cmd = cmd :: replicate 19 x00
  /\ length (encodeCommand cmd) = 20
  /\ command_of <$> [readVoltage; readCurrent; readPower; readRelay; readAll;
                     setRelay x01; setRelay x00]
     = [x01; x02; x03; x04; x05; x06; x07].
Proof.
  split; [|done]. rewrite spi_write_eq.
  by destruct (result_of _ <? 0)%Z.
Qed.

(** C6: every exchange is 20 bytes each way.  Whatever buffers and length
    [spi_transfer] is called with, the transfer it submits has length 20
    and a 20-byte transmit buffer, the receive buffer holds 20 bytes, and
    this holds for every transfer of a whole run of [main]. *)
Theorem every_exchange_twenty_bytes :
  (forall tx rx n (w : world D),
      exists ts, wire (world_of (spi_transfer tx rx n w)) = wire w ++ ts
                 /\ Forall twenty ts)
  /\ (forall rx : list byte, length (recvbuf_of rx) = 20)
  /\ (forall (input : list Z) (k : D),
         Forall twenty (wire (world_of (main input (initial_world k))))).
Proof.
  split; [apply spi_transfer_wire|].
  split; [apply recvbuf_of_length|].
  intros input k. apply (keeps_main input (initial_world k)). constructor.
Qed.

Local Ltac member :=
  solve [repeat first [apply list_elem_of_here | apply list_elem_of_further]].

(** C2, as amended: [spi_read_all] copies [sizeof (homeoffice_data)] = 16
    bytes from reply offset 3, and the members are read at the packed
    offsets: voltage from frame bytes 3..7, current from 7..11, power from
    11..15 and relay from byte 15. *)
Theorem readAll_layout (w : world D) :
  well_formed w -> transfer_fails readAll w = false ->
  exists w', execute readAll w = Ret tt w'
    /\ sizeof = 16
    /\ gs_homeoffice_data w' = decodePayload (read_frame readAll w) 16
    /\ voltage (gs_homeoffice_data w')
       = Float32.of_bytes (take 4 (drop 3 (read_frame readAll w)))
    /\ current (gs_homeoffice_data w')
       = Float32.of_bytes (take 4 (drop 7 (read_frame readAll w)))
    /\ power (gs_homeoffice_data w')
       = Float32.of_bytes (take 4 (drop 11 (read_frame readAll w)))
    /\ relay (gs_homeoffice_data w')
       = default x00 (read_frame readAll w !! 15)
    /\ stdout w' = stdout w ++ report readAll (gs_homeoffice_data w').
Proof.
  intros Hwf Hok. eexists. split; [by apply execute_ok|].
  cbn [gs_homeoffice_data stdout on_stdout with_data].
  rewrite (cached_readAll w Hwf).
  change sizeof with 16.
  unfold voltage, current, power, relay.
  rewrite !field_decodePayload by (vm_compute; lia).
  repeat (split; [reflexivity|]).
  split; [|reflexivity].
  change offsetof_relay with 12.
  by rewrite decodePayload_lookup by lia.
Qed.

(** C5: when the transfer succeeds and the slice lies inside the frame,
    [spi_read] returns, and the bytes it stores are exactly the bytes at
    offsets 3..3+len of the received frame; bytes 0, 1 and 2 of the frame
    have no influence. *)
Theorem spi_read_payload (off n : nat) (w : world D) :
  (result_of (answer (replicate 20 x00) w) <? 0)%Z = false ->
  3 + n <= 20 ->
  off + n <= length (gs_homeoffice_data w) ->
  exists w', spi_read off n w = Ret tt w'
    /\ field off n (gs_homeoffice_data w')
       = decodePayload (frame_of (answer (replicate 20 x00) w)) n
    /\ length (decodePayload (frame_of (answer (replicate 20 x00) w)) n) = n
    /\ (forall i, i < n ->
          decodePayload (frame_of (answer (replicate 20 x00) w)) n !! i
          = frame_of (answer (replicate 20 x00) w) !! (3 + i))
    /\ (forall h g body : list byte,
          length h = 3 -> length g = 3 ->
          decodePayload (h ++ body) n = decodePayload (g ++ body) n).
Proof.
  intros Hr Hsrc Hdst.
  assert (Hlen : length (decodePayload (frame_of (answer (replicate 20 x00) w)) n) = n)
    by (apply decodePayload_length; by rewrite frame_of_length).
  rewrite spi_read_eq, Hr.
  rewrite memcpy_in_bounds by (rewrite ?frame_of_length; lia).
  eexists. split; [reflexivity|].
  cbn [gs_homeoffice_data with_data].
  fold (decodePayload (frame_of (answer (replicate 20 x00) w)) n).
  split.
  { rewrite <- Hlen at 1. apply field_inserts. by rewrite Hlen. }
  split; [exact Hlen|].
  split; [intros i Hi; by apply decodePayload_lookup|].
  intros h g body. apply decodePayload_header.
Qed.

(** C7: a transfer failure is fatal and copies nothing.  If either
    exchange of an operation fails, the operation does not return: the
    process exits with status 1 and the diagnostic on stderr, nothing is
    printed, and the cached data is unchanged.  More generally no call of
    [spi_transfer] that ends the process has touched the cached data. *)
Theorem transfer_failure_is_fatal (op : operation) (w : world D) :
  transfer_fails op w = true ->
  (exists w', execute op w = Exit 1%Z w'
     /\ gs_homeoffice_data w' = gs_homeoffice_data w
     /\ stdout w' = stdout w
     /\ stderr w' = stderr w ++ [TRANSFER_DIAGNOSTIC])
  /\ (forall tx rx n (v v' : world D) st,
        spi_transfer tx rx n v = Exit st v' ->
        st = 1%Z /\ gs_homeoffice_data v' = gs_homeoffice_data v).
Proof.
  intros Hf. split; [by apply execute_failed|].
  intros tx rx n v v' st Hx.
  by destruct (spi_transfer_exit tx rx n v v' st Hx) as (-> & -> & _).
Qed.

(** C8: a start-up failure is fatal.  If [open] fails, or the mode, the
    word width or the clock speed is rejected, [main] prints the step's
    diagnostic on stderr and exits with status 1, and no exchange is made:
    the wire is as it was. *)
Theorem startup_failure_is_fatal (input : list Z) (w : world D) (msg : string) :
  startup_failure w = Some msg ->
  exists w', main input w = Exit 1%Z w'
    /\ stderr w' = stderr w ++ [msg]
    /\ wire w' = wire w
    /\ stdout w' = stdout w
    /\ msg ∈ ["Error opening SPI device"; "Error setting SPI mode";
              "Error setting SPI bits per word"; "Error setting SPI speed"].
Proof.
  unfold startup_failure, main, spi_init, bind, sys_open_dev, ioctl_cfg.
  destruct (sys_open (kernel w) SPI_DEVICE) as [fd k1].
  cbn [kernel gs_spi_fd with_fd with_kernel].
  destruct (fd <? 0)%Z.
  { intros [= <-]. eexists. split; [reflexivity|]. cbn. repeat split; member. }
  cbn [ret kernel gs_spi_fd with_fd with_kernel].
  destruct (ioctl_wr_mode k1 fd SPI_MODE) as [r2 k2].
  destruct (r2 <? 0)%Z.
  { intros [= <-]. eexists. split; [reflexivity|]. cbn. repeat split; member. }
  cbn [ret kernel gs_spi_fd with_fd with_kernel].
  destruct (ioctl_wr_bits_per_word k2 fd SPI_BITS_PER_WORD) as [r3 k3].
  destruct (r3 <? 0)%Z.
  { intros [= <-]. eexists. split; [reflexivity|]. cbn. repeat split; member. }
  cbn [ret kernel gs_spi_fd with_fd with_kernel].
  destruct (ioctl_wr_max_speed_hz k3 fd SPI_SPEED_HZ) as [r4 k4].
  destruct (r4 <? 0)%Z; [|discriminate].
  intros [= <-]. eexists. split; [reflexivity|]. cbn. repeat split; member.
Qed.

(** C9: the three payload lengths the operations ask for (1, 4 and
    [sizeof (homeoffice_data)]) satisfy 3 + len <= 20 and fit their
    destination, the slice taken from a 20-byte frame has exactly that
    length, and so no operation ever leaves a buffer. *)
Theorem payload_within_frame (op : operation) :
  rx_len_of op ∈ [1; 4; sizeof]
  /\ 3 + rx_len_of op <= 20
  /\ rx_offset_of op + rx_len_of op <= sizeof
  /\ (forall frame : list byte,
        length frame = 20 ->
        length (decodePayload frame (rx_len_of op)) = rx_len_of op)
  /\ (forall w w' : world D, well_formed w -> execute op w <> Fault w').
Proof.
  split; [destruct op; cbn; member|].
  destruct (rx_bounds op) as [Hsrc Hdst].
  repeat split; [done|done| |].
  - intros frame Hl. apply decodePayload_length. by rewrite Hl.
  - intros w w'. apply execute_no_fault.
Qed.

(** C10: [spi_set_relay] writes command 0x07 for a zero argument and 0x06
    for every other, then stores exactly one payload byte, frame byte 3 of
    the following read, as the relay state, and reports ON if and only if
    that byte is not zero. *)
Theorem set_relay_spec (state : byte) (w : world D) :
  well_formed w -> transfer_fails (setRelay state) w = false ->
  exists w' b, spi_set_relay state w = Ret tt w'
    /\ b = default x00 (read_frame (setRelay state) w !! 3)
    /\ wire w' = wire w ++
         [transfer_of ((if Byte.eqb state x00 then x07 else x06) :: replicate 19 x00);
          transfer_of (replicate 20 x00)]
    /\ (Byte.eqb state x00 = true <-> state = x00)
    /\ gs_homeoffice_data w' = <[offsetof_relay := b]> (gs_homeoffice_data w)
    /\ relay (gs_homeoffice_data w') = b
    /\ stdout w' = stdout w ++
         [("Relay: %s\n", [arg_str (if Byte.eqb b x00 then "OFF" else "ON")])]
    /\ (Byte.eqb b x00 = false <-> b <> x00).
Proof.
  intros Hwf Hok.
  change (spi_set_relay state) with (execute (setRelay state)).
  rewrite (execute_ok _ w Hwf Hok).
  eexists. eexists. split; [reflexivity|]. split; [reflexivity|].
  cbn [wire stdout gs_homeoffice_data on_stdout with_data exchanged written
       on_wire with_kernel].
  unfold cached. cbn [rx_offset_of rx_len_of command_of report].
  change sizeof_uint8_t with 1.
  rewrite decodePayload_one by (unfold read_frame; apply frame_of_length).
  set (b := default x00 (read_frame (setRelay state) w !! 3)).
  assert (Hrelay : relay (<[offsetof_relay:=b]> (gs_homeoffice_data w)) = b).
  { unfold relay. rewrite list_lookup_insert_eq; [done|].
    unfold well_formed in Hwf. rewrite Hwf. vm_compute. lia. }
  cbn [list_inserts]. rewrite Hrelay.
  split.
  { rewrite <- (assoc_L (++)). cbn. by destruct (Byte.eqb state x00). }
  split.
  { split; [apply Byte.byte_dec_bl|intros ->; done]. }
  split; [done|]. split; [done|]. split; [done|].
  split.
  - intros Hb ->. discriminate.
  - intros Hb. destruct (Byte.eqb b x00) eqn:Heq; [|done].
    by apply Byte.byte_dec_bl in Heq.
Qed.

End Claims.

(** ** Floats on display *)

Ltac evaluate :=
  lazymatch goal with
  | |- exists _, _ => eexists; evaluate
  | |- _ /\ _ => split; [evaluate|evaluate]
  | |- _ <> _ => vm_compute; discriminate
  | |- _ => vm_compute; reflexivity
  end.

(** The bytes 00 00 00 3F denote one half: twice the value is one. *)
Lemma half_bytes :
  Float32.of_bytes [x00; x00; x00; x3f] = S754_finite false 8388608 (-24)
  /\ Float32.mul (Float32.of_bytes [x00; x00; x00; x3f]) (Float32.of_int 2)
     = Float32.of_int 1.
Proof. evaluate. Qed.

(** The read-current scenario: with 0.5 in the payload the cached current
    is 0.5 and the value handed to [printf] is 500. *)
Lemma read_current_half :
  exists w', execute readCurrent (serving [] half_reply) = Ret tt w'
    /\ homeoffice_data.current (gs_homeoffice_data w')
       = S754_finite false 8388608 (-24)
    /\ stdout w' = [("Current: %05.2f mA\n", [arg_double (Float32.of_int 500)])].
Proof. evaluate. Qed.

(** In general: the current read hands to [printf] the float at frame
    bytes 3..7 multiplied by 1000, with the unit mA. *)
Lemma read_current_display {D : Type} `{!spidev D} (w : world D) :
  well_formed w -> transfer_fails readCurrent w = false ->
  exists w', spi_read_current w = Ret tt w'
    /\ stdout w' = stdout w ++
         [("Current: %05.2f mA\n",
           [arg_double (Float32.mul
                          (Float32.of_bytes (decodePayload (read_frame readCurrent w) 4))
                          (Float32.of_int 1000))])].
Proof.
  intros Hwf Hok. eexists.
  split; [exact (execute_ok readCurrent w Hwf Hok)|].
  assert (Hlen : length (decodePayload (read_frame readCurrent w) 4) = 4).
  { apply decodePayload_length. unfold read_frame. rewrite frame_of_length. lia. }
  assert (Hcur : homeoffice_data.current (cached readCurrent w)
                 = Float32.of_bytes (decodePayload (read_frame readCurrent w) 4)).
  { unfold homeoffice_data.current, cached. cbn [rx_offset_of rx_len_of].
    f_equal. change homeoffice_data.sizeof_float with 4.
    rewrite <- Hlen at 1. apply field_inserts.
    unfold well_formed in Hwf. rewrite Hlen, Hwf. vm_compute. lia. }
  cbn [stdout on_stdout report]. by rewrite Hcur.
Qed.

(** C3: [spi_read_voltage] prints the cached voltage, unscaled, with the
    unit V, but [spi_read_all] prints the same unscaled value with the unit
    mV.  With 5.0 V in the reply, [spi_read_all] hands 5.0 to the format
    "Voltage: %05.2f mV". *)
Theorem read_all_voltage_unit :
  stdout (world_of (execute readVoltage (serving [] five_reply)))
  = [("Voltage: %05.2f V\n", [arg_double (Float32.of_int 5)])]
  /\ head (stdout (world_of (execute readAll (serving [] five_reply))))
     = Some ("Voltage: %05.2f mV\n", [arg_double (Float32.of_int 5)]).
Proof. evaluate. Qed.

(** ** Counterexamples *)

(** C1 fails as stated: a voltage read that returns has made two exchanges,
    not one. *)
Lemma one_exchange_counterexample :
  exists w', execute readVoltage (serving [] five_reply) = Ret tt w'
    /\ wire (serving [] five_reply) = []
    /\ length (wire w') = 2
    /\ length (wire w') <> length (wire (serving [] five_reply)) + 1.
Proof. evaluate. Qed.

(** C2 fails as stated: two replies with the same nine bytes at offsets
    3..12 are decoded to different relay states, because the relay is read
    at frame byte 15. *)
Lemma read_all_nine_bytes_counterexample :
  decodePayload (recvbuf_of zero_reply) 9 = decodePayload (recvbuf_of relay_reply) 9
  /\ last (stdout (world_of (execute readAll (serving [] zero_reply))))
     = Some ("Relay: %s\n", [arg_str "OFF"])
  /\ last (stdout (world_of (execute readAll (serving [] relay_reply))))
     = Some ("Relay: %s\n", [arg_str "ON"]).
Proof. evaluate. Qed.

(** ** Instances *)

Lemma execute_two_exchanges_witness :
  exists w', execute readVoltage (serving [] five_reply) = Ret tt w'
    /\ wire w' = wire (serving [] five_reply)
                 ++ [transfer_of (encodeCommand (command_of readVoltage));
                     transfer_of (replicate 20 x00)]
    /\ gs_homeoffice_data w' = cached readVoltage (serving [] five_reply)
    /\ stdout w' = stdout (serving [] five_reply)
                   ++ report readVoltage (cached readVoltage (serving [] five_reply)).
Proof.
  apply (execute_two_exchanges readVoltage (serving [] five_reply));
    reflexivity.
Defined.

Lemma readAll_layout_witness :
  exists w', execute readAll (serving [] relay_reply) = Ret tt w'
    /\ homeoffice_data.sizeof = 16
    /\ gs_homeoffice_data w'
       = decodePayload (read_frame readAll (serving [] relay_reply)) 16
    /\ homeoffice_data.voltage (gs_homeoffice_data w')
       = Float32.of_bytes (take 4 (drop 3 (read_frame readAll (serving [] relay_reply))))
    /\ homeoffice_data.current (gs_homeoffice_data w')
       = Float32.of_bytes (take 4 (drop 7 (read_frame readAll (serving [] relay_reply))))
    /\ homeoffice_data.power (gs_homeoffice_data w')
       = Float32.of_bytes (take 4 (drop 11 (read_frame readAll (serving [] relay_reply))))
    /\ homeoffice_data.relay (gs_homeoffice_data w')
       = default x00 (read_frame readAll (serving [] relay_reply) !! 15)
    /\ stdout w' = stdout (serving [] relay_reply)
                   ++ report readAll (gs_homeoffice_data w').
Proof.
  apply (readAll_layout (serving [] relay_reply)); reflexivity.
Defined.

Lemma spi_read_payload_witness :
  exists w', spi_read 4 4 (reading half_reply) = Ret tt w'
    /\ homeoffice_data.field 4 4 (gs_homeoffice_data w') = [x00; x00; x00; x3f].
Proof.
  destruct (spi_read_payload 4 4 (reading half_reply)) as (w' & Hrun & Hfield & _);
    [reflexivity|vm_compute; lia|vm_compute; lia|].
  exists w'. split; [exact Hrun|]. rewrite Hfield. reflexivity.
Defined.

Lemma transfer_failure_is_fatal_witness :
  exists w', execute readVoltage read_failing = Exit 1%Z w'
    /\ gs_homeoffice_data w' = gs_homeoffice_data read_failing
    /\ stdout w' = stdout read_failing
    /\ stderr w' = stderr read_failing ++ [TRANSFER_DIAGNOSTIC].
Proof.
  apply (transfer_failure_is_fatal readVoltage read_failing). reflexivity.
Defined.

Lemma startup_failure_is_fatal_witness :
  exists w', main [5%Z; 8%Z] unavailable = Exit 1%Z w'
    /\ stderr w' = stderr unavailable ++ ["Error opening SPI device"]
    /\ wire w' = wire unavailable
    /\ stdout w' = stdout unavailable
    /\ "Error opening SPI device"
       ∈ ["Error opening SPI device"; "Error setting SPI mode";
          "Error setting SPI bits per word"; "Error setting SPI speed"].
Proof.
  apply (startup_failure_is_fatal [5%Z; 8%Z] unavailable). reflexivity.
Defined.

Lemma payload_within_frame_witness :
  3 + rx_len_of readAll <= 20
  /\ length (decodePayload zero_reply (rx_len_of readAll)) = rx_len_of readAll
  /\ execute readAll (serving [] zero_reply) <> Fault (serving [] zero_reply).
Proof.
  destruct (payload_within_frame (D:=script) readAll) as (_ & Hsrc & _ & Hlen & Hsafe).
  split; [exact Hsrc|].
  split; [apply Hlen; reflexivity|apply Hsafe; reflexivity].
Defined.

Lemma set_relay_spec_witness :
  exists w' b, spi_set_relay x01 (serving [] [x00; x00; x06; x01]) = Ret tt w'
    /\ b = default x00 (read_frame (setRelay x01) (serving [] [x00; x00; x06; x01]) !! 3)
    /\ wire w' = wire (serving [] [x00; x00; x06; x01]) ++
         [transfer_of ((if Byte.eqb x01 x00 then x07 else x06) :: replicate 19 x00);
          transfer_of (replicate 20 x00)]
    /\ (Byte.eqb x01 x00 = true <-> x01 = x00)
    /\ gs_homeoffice_data w'
       = <[homeoffice_data.offsetof_relay := b]>
           (gs_homeoffice_data (serving [] [x00; x00; x06; x01]))
    /\ homeoffice_data.relay (gs_homeoffice_data w') = b
    /\ stdout w' = stdout (serving [] [x00; x00; x06; x01]) ++
         [("Relay: %s\n", [arg_str (if Byte.eqb b x00 then "OFF" else "ON")])]
    /\ (Byte.eqb b x00 = false <-> b <> x00).
Proof.
  apply (set_relay_spec x01 (serving [] [x00; x00; x06; x01])); reflexivity.
Defined.

(** ** Command names *)

Lemma get_cmd_str_known (cmd : byte) :
  In cmd command_codes -> get_cmd_str cmd <> "UNKNOWN".
Proof.
  intros Hin. repeat (destruct Hin as [<-|Hin]; [vm_compute; discriminate|]).
  destruct Hin.
Qed.

Lemma get_cmd_str_unknown (cmd : byte) :
  ~ In cmd command_codes -> get_cmd_str cmd = "UNKNOWN".
Proof.
  intros Hout. unfold get_cmd_str.
  repeat match goal with
         | |- context [Byte.eqb cmd ?c] =>
             let He := fresh "He" in
             destruct (Byte.eqb cmd c) eqn:He;
             [apply Byte.byte_dec_bl in He; subst cmd; exfalso; apply Hout;
              vm_compute; tauto|]
         end.
  reflexivity.
Qed.

(** X1: [get_cmd_str] names exactly the seven command codes, and names
    them apart: it answers "UNKNOWN" for every other byte and for no code,
    two bytes with the same name other than "UNKNOWN" are the same code,
    and every command an operation sends is one of the seven. *)
Theorem get_cmd_str_names (c1 c2 : byte) (op : operation) :
  (get_cmd_str c1 = "UNKNOWN" <-> ~ In c1 command_codes)
  /\ (In c1 command_codes -> get_cmd_str c1 = get_cmd_str c2 -> c1 = c2)
  /\ In (command_of op) command_codes.
Proof.
  split; [|split].
  - split.
    + intros Hu Hin. by apply (get_cmd_str_known c1 Hin).
    + apply get_cmd_str_unknown.
  - intros Hin1 Heq.
    destruct (in_dec Byte.byte_eq_dec c2 command_codes) as [Hin2|Hout2].
    + repeat (destruct Hin1 as [<-|Hin1];
              [repeat (destruct Hin2 as [<-|Hin2];
                       [first [reflexivity|vm_compute in Heq; discriminate Heq]|]);
               destruct Hin2|]).
      destruct Hin1.
    + rewrite (get_cmd_str_unknown c2 Hout2) in Heq.
      by destruct (get_cmd_str_known c1 Hin1).
  - destruct op as [| | | | |state]; try (vm_compute; tauto).
    cbn [command_of]. destruct (Byte.eqb state x00); vm_compute; tauto.
Qed.

Lemma get_cmd_str_names_witness :
  get_cmd_str x03 <> "UNKNOWN" /\ (get_cmd_str x03 = get_cmd_str x03 -> x03 = x03).
Proof.
  destruct (get_cmd_str_names x03 x03 readPower) as ([Hu _] & Hinj & Hop).
  split.
  - intros Heq. apply (Hu Heq). vm_compute. tauto.
  - apply Hinj. vm_compute. tauto.
Defined.

(** ** More about start-up and the single operations *)

Section MoreOperations.
Context {D : Type} `{!spidev D}.
Import homeoffice_data.

(** X2: [spi_init] returns exactly when no start-up step fails; it then
    has stored the descriptor [open] returned, which is not negative, and
    has printed nothing, put nothing on the wire and left the cached data
    alone. *)
Theorem spi_init_returns (w : world D) :
  (startup_failure w = None ->
   exists w', spi_init w = Ret tt w'
     /\ gs_spi_fd w' = fst (sys_open (kernel w) SPI_DEVICE)
     /\ (0 <= gs_spi_fd w')%Z
     /\ gs_homeoffice_data w' = gs_homeoffice_data w
     /\ wire w' = wire w /\ stdout w' = stdout w /\ stderr w' = stderr w)
  /\ (forall w', spi_init w = Ret tt w' -> startup_failure w = None).
Proof.
  unfold startup_failure, spi_init, bind, sys_open_dev, ioctl_cfg.
  destruct (sys_open (kernel w) SPI_DEVICE) as [fd k1].
  cbn [kernel gs_spi_fd with_fd with_kernel fst].
  destruct (fd <? 0)%Z eqn:Hfd; [split; [discriminate|intros w'; discriminate]|].
  cbn [ret kernel gs_spi_fd with_fd with_kernel].
  destruct (ioctl_wr_mode k1 fd SPI_MODE) as [r2 k2].
  destruct (r2 <? 0)%Z; [split; [discriminate|intros w'; discriminate]|].
  cbn [ret kernel gs_spi_fd with_fd with_kernel].
  destruct (ioctl_wr_bits_per_word k2 fd SPI_BITS_PER_WORD) as [r3 k3].
  destruct (r3 <? 0)%Z; [split; [discriminate|intros w'; discriminate]|].
  cbn [ret kernel gs_spi_fd with_fd with_kernel].
  destruct (ioctl_wr_max_speed_hz k3 fd SPI_SPEED_HZ) as [r4 k4].
  destruct (r4 <? 0)%Z; [split; [discriminate|intros w'; discriminate]|].
  split; [|done]. intros _. eexists. split; [reflexivity|].
  cbn. repeat split. by apply Z.ltb_ge.
Qed.

(** X3: [spi_read] has no check of its own.  It returns exactly when the
    transfer succeeds and the requested slice lies inside both the 20-byte
    frame and the destination object; when the transfer succeeds and the
    slice does not fit, the copy leaves a buffer. *)
Theorem spi_read_outcome (off n : nat) (w : world D) :
  ((exists w', spi_read off n w = Ret tt w')
   <-> (result_of (answer (replicate 20 x00) w) <? 0)%Z = false
       /\ 3 + n <= 20 /\ off + n <= length (gs_homeoffice_data w))
  /\ ((exists w', spi_read off n w = Fault w')
      <-> (result_of (answer (replicate 20 x00) w) <? 0)%Z = false
          /\ (20 < 3 + n \/ length (gs_homeoffice_data w) < off + n)).
Proof.
  rewrite spi_read_eq.
  destruct (result_of _ <? 0)%Z.
  { split; split; try (intros [w' Hw']; discriminate); intros [? _]; discriminate. }
  destruct (memcpy _ _ _ _ _) as [d|] eqn:Hm.
  - apply memcpy_Some in Hm as (_ & Hdst & Hsrc). rewrite frame_of_length in Hsrc.
    split; split.
    + done.
    + intros _. by eexists.
    + intros [w' Hw']. discriminate.
    + intros [_ Hb]. lia.
  - assert (Hbad : 20 < 3 + n \/ length (gs_homeoffice_data w) < off + n).
    { destruct (decide (3 + n <= 20)) as [Hs|Hs]; [|lia].
      destruct (decide (off + n <= length (gs_homeoffice_data w))) as [Hd|Hd]; [|lia].
      rewrite memcpy_in_bounds in Hm; [discriminate|done|by rewrite frame_of_length]. }
    split; split.
    + intros [w' Hw']. discriminate.
    + intros (_ & Hs & Hd). lia.
    + done.
    + intros _. by eexists.
Qed.

(** X4: a failed exchange stops the operation where it is.  When the
    command exchange fails the read is never attempted and one transfer is
    on the wire; otherwise both are, whatever happens next. *)
Theorem execute_stops_at_failure (op : operation) (w : world D) :
  wire (world_of (execute op w))
  = wire w ++
    (if (write_result op w <? 0)%Z
     then [transfer_of (encodeCommand (command_of op))]
     else [transfer_of (encodeCommand (command_of op));
           transfer_of (replicate 20 x00)]).
Proof.
  rewrite execute_eq.
  destruct (write_result op w <? 0)%Z; [reflexivity|].
  destruct (read_result op w <? 0)%Z;
    [cbn; by rewrite <- (assoc_L (++))|].
  destruct (memcpy _ _ _ _ _); cbn; by rewrite <- (assoc_L (++)).
Qed.

(** X5: an operation writes the bytes of its own member only.  Every byte
    of the cached object outside the member's range keeps its value, and
    the object keeps its size. *)
Theorem execute_writes_its_member (op : operation) (w w' : world D) (i : nat) :
  execute op w = Ret tt w' ->
  length (gs_homeoffice_data w') = length (gs_homeoffice_data w)
  /\ (i < rx_offset_of op \/ rx_offset_of op + rx_len_of op <= i ->
      gs_homeoffice_data w' !! i = gs_homeoffice_data w !! i).
Proof.
  rewrite execute_eq.
  destruct (write_result op w <? 0)%Z; [discriminate|].
  destruct (read_result op w <? 0)%Z; [discriminate|].
  destruct (memcpy _ _ _ _ _) as [d|] eqn:Hm; [|discriminate].
  apply memcpy_Some in Hm as (-> & Hdst & Hsrc).
  intros [= <-]. cbn [gs_homeoffice_data on_stdout with_data].
  split; [apply length_inserts|].
  assert (Hlen : length (take (rx_len_of op) (drop 3 (read_frame op w))) = rx_len_of op)
    by (rewrite length_take, length_drop; lia).
  intros [Hlt|Hge].
  - by apply list_lookup_inserts_lt.
  - apply list_lookup_inserts_ge. by rewrite Hlen.
Qed.

(** X6: the three single-value reads all take their float from frame bytes
    3..7 of the reply.  The voltage goes to [printf] as it is, with the
    unit V; the current and the power go there multiplied by 1000, with
    the units mA and mW. *)
Theorem single_value_display (w : world D) :
  well_formed w ->
  (transfer_fails readVoltage w = false ->
   exists w', spi_read_voltage w = Ret tt w'
     /\ stdout w' = stdout w ++
          [("Voltage: %05.2f V\n",
            [arg_double (Float32.of_bytes (decodePayload (read_frame readVoltage w) 4))])])
  /\ (transfer_fails readCurrent w = false ->
      exists w', spi_read_current w = Ret tt w'
        /\ stdout w' = stdout w ++
             [("Current: %05.2f mA\n",
               [arg_double
                  (Float32.mul
                     (Float32.of_bytes (decodePayload (read_frame readCurrent w) 4))
                     (Float32.of_int 1000))])])
  /\ (transfer_fails readPower w = false ->
      exists w', spi_read_power w = Ret tt w'
        /\ stdout w' = stdout w ++
             [("Power: %05.2f mW\n",
               [arg_double
                  (Float32.mul
                     (Float32.of_bytes (decodePayload (read_frame readPower w) 4))
                     (Float32.of_int 1000))])]).
Proof.
  intros Hwf.
  assert (Hmember : forall op,
    rx_len_of op = 4 ->
    field (rx_offset_of op) 4 (cached op w) = decodePayload (read_frame op w) 4).
  { intros op Hop. unfold cached. rewrite Hop.
    assert (Hlen : length (decodePayload (read_frame op w) 4) = 4).
    { apply decodePayload_length. unfold read_frame. rewrite frame_of_length. lia. }
    rewrite <- Hlen at 1. apply field_inserts.
    destruct (rx_bounds op) as [_ Hdst]. unfold well_formed in Hwf.
    rewrite Hlen, Hwf, <- Hop. exact Hdst. }
  split; [|split]; intros Hok; eexists.
  - split; [exact (execute_ok readVoltage w Hwf Hok)|].
    cbn [stdout on_stdout report]. unfold voltage. change sizeof_float with 4.
    pose proof (Hmember readVoltage eq_refl) as Hm. cbn [rx_offset_of] in Hm.
    by rewrite Hm.
  - split; [exact (execute_ok readCurrent w Hwf Hok)|].
    cbn [stdout on_stdout report]. unfold current. change sizeof_float with 4.
    pose proof (Hmember readCurrent eq_refl) as Hm. cbn [rx_offset_of] in Hm.
    by rewrite Hm.
  - split; [exact (execute_ok readPower w Hwf Hok)|].
    cbn [stdout on_stdout report]. unfold power. change sizeof_float with 4.
    pose proof (Hmember readPower eq_refl) as Hm. cbn [rx_offset_of] in Hm.
    by rewrite Hm.
Qed.

End MoreOperations.

(** ** Runs of [main] *)

Section MainRun.
Context {D : Type} `{!spidev D}.
Import homeoffice_data.

Lemma switch_eq (choice : Z) (w : world D) :
  switch choice w =
  match menu_operation choice with
  | Some op => execute op w
  | None => printf (if (choice =? 8)%Z then "Exiting...\n" else "Invalid choice\n") [] w
  end.
Proof.
  destruct choice as [|p|p]; try reflexivity.
  repeat (match goal with q : positive |- _ => destruct q end; try reflexivity).
Qed.

Lemma menu_eq (w : world D) : menu w = Ret tt (on_stdout menu_lines w).
Proof.
  unfold menu, bind, printf. cbn beta iota. by rewrite !on_stdout_app.
Qed.

Lemma main_loop_nil (w : world D) : main_loop [] w = Ret false (at_prompt w).
Proof.
  cbn [main_loop]. unfold bind at 1. unfold set_data at 1. cbn beta iota.
  unfold bind at 1. by rewrite menu_eq.
Qed.

Lemma main_loop_cons (choice : Z) (input : list Z) (w : world D) :
  main_loop (choice :: input) w =
  match switch choice (chosen w) with
  | Ret _ w1 =>
      if (choice =? 8)%Z then Ret true (paused w1) else main_loop input (paused w1)
  | Exit st w1 => Exit st w1
  | Fault w1 => Fault w1
  end.
Proof.
  cbn [main_loop]. unfold bind at 1. unfold set_data at 1. cbn beta iota.
  unfold bind at 1. rewrite menu_eq.
  unfold bind at 1. unfold printf at 1. cbn beta iota.
  unfold bind at 1. fold (at_prompt w). fold (chosen w).
  destruct (switch choice (chosen w)) as [[] w1|st w1|w1]; [|done|done].
  unfold bind at 1. unfold printf at 1. cbn beta iota. fold (paused w1).
  by destruct (choice =? 8)%Z.
Qed.

Lemma main_eq (input : list Z) (w : world D) :
  main input w =
  match spi_init w with
  | Ret _ w1 =>
      match main_loop input w1 with
      | Ret true w2 =>
          Ret (Some 0%Z) (with_kernel (sys_close (kernel w2) (gs_spi_fd w2)) w2)
      | Ret false w2 => Ret None w2
      | Exit st w2 => Exit st w2
      | Fault w2 => Fault w2
      end
  | Exit st w1 => Exit st w1
  | Fault w1 => Fault w1
  end.
Proof.
  unfold main. unfold bind at 1.
  destruct (spi_init w) as [[] w1|st w1|w1]; [|done|done].
  unfold bind at 1.
  destruct (main_loop input w1) as [[|] w2|st w2|w2]; done.
Qed.

Lemma chosen_well_formed (w : world D) : well_formed (chosen w).
Proof. unfold well_formed. cbn. reflexivity. Qed.


Lemma switch_ends_well (choice : Z) (w : world D) :
  well_formed w -> ends_well (switch choice w).
Proof.
  intros Hwf. rewrite switch_eq.
  destruct (menu_operation choice) as [op|]; [|done].
  destruct (transfer_fails op w) eqn:Hf.
  - by destruct (execute_failed op w Hf) as (w' & -> & _).
  - by rewrite (execute_ok op w Hwf Hf).
Qed.

Lemma main_loop_ends_well (input : list Z) (w : world D) :
  match main_loop input w with
  | Ret quit _ => if quit : bool then 8%Z ∈ input else 8%Z ∉ input
  | Exit st _ => st = 1%Z
  | Fault _ => False
  end.
Proof.
  revert w. induction input as [|choice input IH]; intros w.
  - rewrite main_loop_nil. apply not_elem_of_nil.
  - rewrite main_loop_cons.
    pose proof (switch_ends_well choice (chosen w) (chosen_well_formed w)) as Hs.
    destruct (switch choice (chosen w)) as [[] w1|st w1|w1]; [|done|done].
    destruct (choice =? 8)%Z eqn:H8.
    + apply Z.eqb_eq in H8 as ->. apply list_elem_of_here.
    + apply Z.eqb_neq in H8. specialize (IH (paused w1)).
      destruct (main_loop input (paused w1)) as [[|] w2|st w2|w2]; [| |done|done].
      * by apply list_elem_of_further.
      * rewrite not_elem_of_cons. split; [congruence|done].
Qed.





Lemma main_loop_after_exit (before after : list Z) (w : world D) :
  main_loop (before ++ 8%Z :: after) w = main_loop (before ++ [8%Z]) w.
Proof.
  revert w. induction before as [|choice before IH]; intros w; cbn [app].
  - by rewrite !main_loop_cons.
  - rewrite !main_loop_cons.
    destruct (switch choice (chosen w)) as [[] w1|st w1|w1]; [|done|done].
    destruct (choice =? 8)%Z; [done|apply IH].
Qed.

(** X9: nothing typed after choice 8 is acted upon: a run of [main] is the
    same whatever follows the first choice 8 in the input. *)
Theorem input_after_exit_ignored (before after : list Z) (w : world D) :
  main (before ++ 8%Z :: after) w = main (before ++ [8%Z]) w.
Proof.
  rewrite !main_eq.
  destruct (spi_init w) as [[] w1|st w1|w1]; [|done|done].
  by rewrite main_loop_after_exit.
Qed.

(** X10: a choice outside 1..8 never reaches the bus: [switch] prints
    "Invalid choice" and changes nothing else. *)
Theorem invalid_choice (choice : Z) (w : world D) :
  (choice < 1 \/ 8 < choice)%Z ->
  switch choice w = Ret tt (on_stdout [("Invalid choice\n", [])] w).
Proof.
  intros Hout. rewrite switch_eq.
  assert (Hnone : menu_operation choice = None).
  { destruct choice as [|p|p]; [done| |done].
    repeat (match goal with q : positive |- _ => destruct q end;
            try reflexivity; try (exfalso; lia)). }
  rewrite Hnone.
  assert (H8 : (choice =? 8)%Z = false) by (apply Z.eqb_neq; lia).
  by rewrite H8.
Qed.

End MainRun.


Lemma invalid_choice_witness :
  switch 9%Z session = Ret tt (on_stdout [("Invalid choice\n", [])] session).
Proof. apply invalid_choice. lia. Defined.

(** ** The system calls of a run *)






(** ** What of a reply matters *)

(** X12: of the two replies of an operation only the payload slice of the
    second matters.  The frame clocked in while the command is sent is
    dropped whole, and of the next frame the three header bytes, the echoed
    command among them, and the bytes after the slice are never looked at:
    two peripherals that agree on the slice give the same run. *)
Theorem reply_dependence (op : operation) (rx1 rx1' rx2 rx2' : list byte) :
  decodePayload (recvbuf_of rx2) (rx_len_of op)
  = decodePayload (recvbuf_of rx2') (rx_len_of op) ->
  execute op (serving rx1 rx2) = execute op (serving rx1' rx2').
Proof.
  intros Hslice.
  assert (Hc : cached op (serving rx1 rx2) = cached op (serving rx1' rx2')).
  { unfold cached.
    change (read_frame op (serving rx1 rx2)) with (recvbuf_of rx2).
    change (read_frame op (serving rx1' rx2')) with (recvbuf_of rx2').
    by rewrite Hslice. }
  rewrite (execute_ok op (serving rx1 rx2)) by reflexivity.
  rewrite (execute_ok op (serving rx1' rx2')) by reflexivity.
  rewrite Hc. reflexivity.
Qed.

Lemma reply_dependence_witness :
  execute readRelay (serving [] [x00; x00; x04; x01])
  = execute readRelay (serving [xff; xff; xff] [x09; x09; x09; x01; x07; x07]).
Proof. apply (reply_dependence readRelay). reflexivity. Defined.

(** ** Instances of the further properties *)

Lemma spi_init_returns_witness :
  exists w', spi_init (serving [] []) = Ret tt w'
    /\ gs_spi_fd w' = 3%Z /\ (0 <= gs_spi_fd w')%Z
    /\ gs_homeoffice_data w' = gs_homeoffice_data (serving [] [])
    /\ wire w' = [] /\ stdout w' = [] /\ stderr w' = [].
Proof.
  exact (proj1 (spi_init_returns (serving [] [])) eq_refl).
Defined.

Lemma spi_read_outcome_witness :
  (exists w', spi_read 4 4 (reading half_reply) = Ret tt w')
  /\ (exists w', spi_read 0 18 (reading half_reply) = Fault w').
Proof.
  split.
  - apply (proj1 (spi_read_outcome 4 4 (reading half_reply))).
    split; [reflexivity|]. vm_compute. lia.
  - apply (proj2 (spi_read_outcome 0 18 (reading half_reply))).
    split; [reflexivity|]. vm_compute. lia.
Defined.

Lemma execute_writes_its_member_witness :
  exists w', execute readCurrent (serving [] half_reply) = Ret tt w'
    /\ length (gs_homeoffice_data w') = 16
    /\ gs_homeoffice_data w' !! 12 = gs_homeoffice_data (serving [] half_reply) !! 12.
Proof.
  eexists. split; [vm_compute; reflexivity|].
  match goal with
  | |- length (gs_homeoffice_data ?w') = _ /\ _ =>
      destruct (execute_writes_its_member readCurrent (serving [] half_reply) w' 12)
        as [Hlen Hkeep]; [vm_compute; reflexivity|]
  end.
  split; [exact Hlen|]. apply Hkeep. vm_compute. lia.
Defined.

Lemma single_value_display_witness :
  exists w', spi_read_voltage (serving [] five_reply) = Ret tt w'
    /\ stdout w' = stdout (serving [] five_reply) ++
         [("Voltage: %05.2f V\n",
           [arg_double (Float32.of_bytes
              (decodePayload (read_frame readVoltage (serving [] five_reply)) 4))])].
Proof.
  apply (proj1 (single_value_display (serving [] five_reply) eq_refl)). reflexivity.
Defined.

(** ** What a whole run sends, keeps and reports *)

Section WholeRun.
Context {D : Type} `{!spidev D}.
Import homeoffice_data.

Lemma command_of_known (op : operation) : In (command_of op) command_codes.
Proof.
  destruct op as [| | | | |state]; try (vm_compute; tauto).
  cbn [command_of]. destruct (Byte.eqb state x00); vm_compute; tauto.
Qed.

Lemma switch_frames (choice : Z) (w : world D) :
  exists ts, wire (world_of (switch choice w)) = wire w ++ ts
             /\ Forall wire_frame ts.
Proof.
  rewrite switch_eq. destruct (menu_operation choice) as [op|].
  - assert (Hcmd : wire_frame (transfer_of (encodeCommand (command_of op))))
      by (right; eexists; split; [apply command_of_known|reflexivity]).
    assert (Hzero : wire_frame (transfer_of (replicate 20 x00))) by (by left).
    rewrite execute_eq.
    destruct (write_result op w <? 0)%Z.
    { eexists [_]. split; [reflexivity|].
      constructor; [exact Hcmd|constructor]. }
    assert (Htwo : wire (exchanged (replicate 20 x00) (written op w))
                   = wire w ++ [transfer_of (encodeCommand (command_of op));
                                transfer_of (replicate 20 x00)])
      by (cbn; by rewrite <- (assoc_L (++))).
    eexists [_; _].
    split; [|constructor; [exact Hcmd|constructor; [exact Hzero|constructor]]].
    destruct (read_result op w <? 0)%Z; [exact Htwo|].
    destruct (memcpy _ _ _ _ _); exact Htwo.
  - exists []. cbn. by rewrite app_nil_r.
Qed.

Lemma main_loop_frames (input : list Z) (w : world D) :
  exists ts, wire (world_of (main_loop input w)) = wire w ++ ts
             /\ Forall wire_frame ts.
Proof.
  revert w. induction input as [|choice input IH]; intros w.
  - rewrite main_loop_nil. exists []. cbn. by rewrite app_nil_r.
  - rewrite main_loop_cons.
    destruct (switch_frames choice (chosen w)) as (ts1 & Ht1 & Hf1).
    change (wire (chosen w)) with (wire w) in Ht1.
    destruct (switch choice (chosen w)) as [[] w1|st w1|w1];
      cbn [world_of] in *; [|by exists ts1|by exists ts1].
    destruct (choice =? 8)%Z; [by exists ts1|].
    destruct (IH (paused w1)) as (ts2 & Ht2 & Hf2).
    change (wire (paused w1)) with (wire w1) in Ht2.
    exists (ts1 ++ ts2). rewrite Ht2, Ht1.
    split; [by rewrite <- (assoc_L (++))|]. by apply Forall_app.
Qed.

(** X13: in any run of [main] every frame sent is one of two kinds: one of
    the seven command codes followed by 19 zero bytes, or 20 zero bytes.
    Nothing the peripheral answers and nothing typed at the menu ever
    reaches the transmit buffer. *)
Theorem main_sends_commands_only (input : list Z) (w : world D) :
  exists ts, wire (world_of (main input w)) = wire w ++ ts
             /\ Forall wire_frame ts.
Proof.
  rewrite main_eq.
  pose proof (quiet_spi_init w) as Hq.
  destruct (spi_init w) as [[] w1|st w1|w1]; cbn [world_of] in Hq;
    [|exists []; cbn; by rewrite app_nil_r, Hq
     |exists []; cbn; by rewrite app_nil_r, Hq].
  destruct (main_loop_frames input w1) as (ts & Ht & Hf).
  exists ts. rewrite <- Hq. split; [|done].
  by destruct (main_loop input w1) as [[|] w2|st w2|w2].
Qed.

Lemma main_loop_cleared (input : list Z) (w w' : world D) (quit : bool) :
  main_loop input w = Ret quit w' ->
  if quit then True else gs_homeoffice_data w' = replicate sizeof x00.
Proof.
  revert w. induction input as [|choice input IH]; intros w.
  - rewrite main_loop_nil. by intros [= <- <-].
  - rewrite main_loop_cons.
    destruct (switch choice (chosen w)) as [[] w1|st w1|w1]; [|done|done].
    destruct (choice =? 8)%Z; [by intros [= <- _]|apply IH].
Qed.

(** X14: the cached reading does not outlive its iteration.  Whenever
    [main] is waiting for a choice the cached object is all zero, whatever
    was read before: each turn of the loop clears it first. *)
Theorem prompt_clears_cache (input : list Z) (w w' : world D) :
  main input w = Ret None w' ->
  gs_homeoffice_data w' = replicate sizeof x00.
Proof.
  rewrite main_eq.
  destruct (spi_init w) as [[] w1|st w1|w1]; [|done|done].
  destruct (main_loop input w1) as [[|] w2|st w2|w2] eqn:Hl; try done.
  intros [= <-]. exact (main_loop_cleared input w1 w2 false Hl).
Qed.

Lemma spi_init_stderr (w : world D) :
  match spi_init w with
  | Ret _ w1 => stderr w1 = stderr w
  | Exit _ w1 => exists msg, msg ∈ diagnostics /\ stderr w1 = stderr w ++ [msg]
  | Fault _ => False
  end.
Proof.
  unfold spi_init, bind, sys_open_dev, ioctl_cfg.
  destruct (sys_open (kernel w) SPI_DEVICE) as [fd k1].
  cbn [kernel gs_spi_fd with_fd with_kernel].
  destruct (fd <? 0)%Z.
  { cbn. eexists. split; [|reflexivity]. apply list_elem_of_here. }
  cbn [ret kernel gs_spi_fd with_fd with_kernel].
  destruct (ioctl_wr_mode k1 fd SPI_MODE) as [r2 k2].
  destruct (r2 <? 0)%Z.
  { cbn. eexists. split; [|reflexivity].
    apply list_elem_of_further, list_elem_of_here. }
  cbn [ret kernel gs_spi_fd with_fd with_kernel].
  destruct (ioctl_wr_bits_per_word k2 fd SPI_BITS_PER_WORD) as [r3 k3].
  destruct (r3 <? 0)%Z.
  { cbn. eexists. split; [|reflexivity].
    do 2 apply list_elem_of_further. apply list_elem_of_here. }
  cbn [ret kernel gs_spi_fd with_fd with_kernel].
  destruct (ioctl_wr_max_speed_hz k3 fd SPI_SPEED_HZ) as [r4 k4].
  destruct (r4 <? 0)%Z; [|reflexivity].
  cbn. eexists. split; [|reflexivity].
  do 3 apply list_elem_of_further. apply list_elem_of_here.
Qed.

Lemma switch_stderr (choice : Z) (w : world D) :
  match switch choice w with
  | Ret _ w1 => stderr w1 = stderr w
  | Exit _ w1 => exists msg, msg ∈ diagnostics /\ stderr w1 = stderr w ++ [msg]
  | Fault _ => True
  end.
Proof.
  assert (Hd : TRANSFER_DIAGNOSTIC ∈ diagnostics)
    by (do 4 apply list_elem_of_further; apply list_elem_of_here).
  rewrite switch_eq. destruct (menu_operation choice) as [op|]; [|done].
  rewrite execute_eq.
  destruct (write_result op w <? 0)%Z; [by eexists|].
  destruct (read_result op w <? 0)%Z; [by eexists|].
  by destruct (memcpy _ _ _ _ _).
Qed.

Lemma main_loop_stderr (input : list Z) (w : world D) :
  match main_loop input w with
  | Ret _ w1 => stderr w1 = stderr w
  | Exit _ w1 => exists msg, msg ∈ diagnostics /\ stderr w1 = stderr w ++ [msg]
  | Fault _ => True
  end.
Proof.
  revert w. induction input as [|choice input IH]; intros w.
  - by rewrite main_loop_nil.
  - rewrite main_loop_cons.
    pose proof (switch_stderr choice (chosen w)) as Hs.
    change (stderr (chosen w)) with (stderr w) in Hs.
    destruct (switch choice (chosen w)) as [[] w1|st w1|w1]; [|done|done].
    destruct (choice =? 8)%Z; [done|].
    specialize (IH (paused w1)).
    change (stderr (paused w1)) with (stderr w1) in IH. rewrite Hs in IH.
    exact IH.
Qed.

(** X15: [main] writes to stderr only to die.  A run that returns or is
    waiting has written nothing there; a run that exits has written exactly
    one line, one of the five diagnostics of the source. *)
Theorem main_stderr (input : list Z) (w : world D) :
  match main input w with
  | Ret _ w' => stderr w' = stderr w
  | Exit _ w' => exists msg, msg ∈ diagnostics /\ stderr w' = stderr w ++ [msg]
  | Fault _ => False
  end.
Proof.
  rewrite main_eq.
  pose proof (spi_init_stderr w) as Hi.
  destruct (spi_init w) as [[] w1|st w1|w1]; [|done|done].
  pose proof (main_loop_stderr input w1) as Hl. rewrite Hi in Hl.
  pose proof (main_loop_ends_well input w1) as Hnf.
  destruct (main_loop input w1) as [[|] w2|st w2|w2]; done.
Qed.

End WholeRun.

Lemma prompt_clears_cache_witness :
  exists w', main [3%Z] session = Ret None w'
    /\ gs_homeoffice_data w' = replicate homeoffice_data.sizeof x00.
Proof.
  eexists. split; [vm_compute; reflexivity|].
  apply (prompt_clears_cache [3%Z] session). vm_compute. reflexivity.
Defined.
